(** * Quiz generation service (app.py): parser, fallback catalog, orchestrator

    A shallow embedding of the quiz logic of [app.py]:
    - [_get_fallback_quiz]      the hand-written fallback catalog,
    - [_parse_quiz_response]    the line parser for the provider's text,
    - [_generate_quiz_with_openai] and [generate_ai_quiz], the orchestration
      around the single outbound provider call.

    Python strings are sequences of Unicode code points, so a [pystr] is a
    list of code points; the string methods the program calls ([split],
    [strip], [startswith], [replace], slicing, [in], [int]) are written out
    on that representation. *)

From Stdlib Require Import List NArith ZArith Lia Bool.
From Stdlib Require String Ascii.
Import ListNotations.

Set Implicit Arguments.

(** ** Python strings *)

Definition codepoint := N.
Definition pystr := list codepoint.

(** Source literals are UTF-8 text; [Literal.u] decodes one into its code
    points, the way the Python compiler reads a [str] literal. *)
Module Literal.
Import String Ascii.

Fixpoint utf8_decode (pending : N) (need : nat) (bytes : list N) : pystr :=
  match bytes with
  | [] => []
  | b :: rest =>
    match need with
    | S k =>
      let cp := (pending * 64 + b mod 64)%N in
      match k with
      | O => cp :: utf8_decode 0 0 rest
      | S _ => utf8_decode cp k rest
      end
    | O =>
      if (b <? 128)%N then b :: utf8_decode 0 0 rest
      else if (b <? 224)%N then utf8_decode (b mod 32) 1 rest
      else if (b <? 240)%N then utf8_decode (b mod 16) 2 rest
      else utf8_decode (b mod 8) 3 rest
    end
  end.

Definition u (s : string) : pystr :=
  utf8_decode 0 0 (map N_of_ascii (list_ascii_of_string s)).

(** Several literal lines, joined by newlines. *)
Fixpoint text (lines : list string) : pystr :=
  match lines with
  | [] => []
  | [line] => u line
  | line :: more => u line ++ 10%N :: text more
  end.

End Literal.

Definition pystr_eqb (a b : pystr) : bool :=
  if list_eq_dec N.eq_dec a b then true else false.

(** [str.isspace] for one character: the code points CPython's
    [_PyUnicode_IsWhitespace] accepts. *)
Definition isspace (c : codepoint) : bool :=
  ((0x09 <=? c) && (c <=? 0x0D) || (0x1C <=? c) && (c <=? 0x20)
   || (c =? 0x85) || (c =? 0xA0) || (c =? 0x1680)
   || (0x2000 <=? c) && (c <=? 0x200A)
   || (c =? 0x2028) || (c =? 0x2029) || (c =? 0x202F) || (c =? 0x205F)
   || (c =? 0x3000))%N.

Fixpoint dropwhile (p : codepoint -> bool) (s : pystr) : pystr :=
  match s with
  | c :: s' => if p c then dropwhile p s' else s
  | [] => []
  end.

Definition lstrip (s : pystr) : pystr := dropwhile isspace s.
Definition rstrip (s : pystr) : pystr := rev (dropwhile isspace (rev s)).
(** [s.strip()] *)
Definition strip (s : pystr) : pystr := rstrip (lstrip s).

(** [s.startswith(prefix)] *)
Fixpoint startswith (s prefix : pystr) {struct prefix} : bool :=
  match prefix, s with
  | [], _ => true
  | p :: ps, c :: cs => (c =? p)%N && startswith cs ps
  | _ :: _, [] => false
  end.

(** [s.startswith((p1, p2, ...))] *)
Definition startswith_any (s : pystr) (prefixes : list pystr) : bool :=
  existsb (startswith s) prefixes.

(** [sub in s] *)
Fixpoint contains (s sub : pystr) : bool :=
  startswith s sub
  || match s with
     | [] => false
     | _ :: s' => contains s' sub
     end.

(** [s.replace(old, new)] scans left to right and replaces every
    non-overlapping occurrence. [skip] counts the characters of an occurrence
    just replaced that are still to be passed over. *)
Fixpoint replace_from (old new : pystr) (skip : nat) (s : pystr) : pystr :=
  match s with
  | [] => []
  | c :: s' =>
    match skip with
    | S k => replace_from old new k s'
    | O =>
      if startswith s old
      then new ++ replace_from old new (length old - 1) s'
      else c :: replace_from old new 0 s'
    end
  end.

Definition replace (s old new : pystr) : pystr :=
  match old with
  | [] => new ++ flat_map (fun c => c :: new) s
  | _ :: _ => replace_from old new 0 s
  end.

(** [s.split(sep)] for a one-character separator. *)
Fixpoint split (s : pystr) (sep : codepoint) : list pystr :=
  match s with
  | [] => [[]]
  | c :: s' =>
    if (c =? sep)%N then [] :: split s' sep
    else match split s' sep with
         | piece :: pieces => (c :: piece) :: pieces
         | [] => [[c]]
         end
  end.

(** [s[n:]] *)
Definition slice_from (n : nat) (s : pystr) : pystr := skipn n s.

(** Truthiness of a [str]: non-empty. *)
Definition truthy (s : pystr) : bool :=
  match s with [] => false | _ :: _ => true end.

(** [a or b] on strings. *)
Definition str_or (a b : pystr) : pystr := if truthy a then a else b.

(** ** Values, exceptions and results *)

(** The Python values that reach the functions below: [response] is a [str]
    or [None] (the provider's [message.content] is optional), and
    [difficulty] is a [str] from the request or the [int] that
    [_parse_quiz_response] passes to [_get_fallback_quiz]. *)
Inductive pyval : Type :=
| PyNone
| PyInt (n : Z)
| PyStr (s : pystr).

Definition pyval_eqb (a b : pyval) : bool :=
  match a, b with
  | PyNone, PyNone => true
  | PyInt x, PyInt y => (x =? y)%Z
  | PyStr x, PyStr y => pystr_eqb x y
  | _, _ => false
  end.

(** Subclasses of [Exception] that the modelled code can meet. *)
Inductive exn : Type :=
| AttributeError
| ValueError
| IndexError
| APIConnectionError
| APITimeoutError
| AuthenticationError
| RateLimitError
| APIStatusError (status : Z).

Definition is_ValueError (e : exn) : bool :=
  match e with ValueError => true | _ => false end.

(** A computation that returns or raises. *)
Definition result (A : Type) : Type := (exn + A)%type.

Definition ok {A} (a : A) : result A := inr a.
Definition raise {A} (e : exn) : result A := inl e.

Definition rbind {A B} (m : result A) (k : A -> result B) : result B :=
  match m with
  | inl e => inl e
  | inr a => k a
  end.

Declare Scope result_scope.
Delimit Scope result_scope with result.
Notation "x <- m ;; k" := (rbind m (fun x => k))
  (at level 61, m at next level, right associativity) : result_scope.

(** [for x in xs: st = body st x], stopping at the first exception. *)
Fixpoint for_each {S X} (body : S -> X -> result S) (xs : list X) (st : S)
  : result S :=
  match xs with
  | [] => ok st
  | x :: xs' => rbind (body st x) (for_each body xs')
  end.

(** [{...}.get(key, default)] on a dict literal with integer values. *)
Fixpoint dict_get (d : list (pyval * Z)) (key : pyval) (default : Z) : Z :=
  match d with
  | [] => default
  | (k, v) :: d' => if pyval_eqb k key then v else dict_get d' key default
  end.

(** ** The literals of app.py *)
Module Text.
Import String.
Import Literal.

Definition ELEMENTARY : pystr := Eval vm_compute in u "小学生".
Definition MIDDLE : pystr := Eval vm_compute in u "中学生".
Definition HIGH : pystr := Eval vm_compute in u "高校生".

Definition QUESTION_MARK : pystr := Eval vm_compute in u "問題:".
Definition ANSWER_MARK : pystr := Eval vm_compute in u "正解:".
Definition EXPLANATION_MARK : pystr := Eval vm_compute in u "解説:".
Definition OPTION_MARKS : list pystr :=
  Eval vm_compute in [u "1."; u "2."; u "3."; u "4."].

Definition DEFAULT_QUESTION : pystr :=
  Eval vm_compute in u "この場所について正しいものはどれでしょう？".
Definition DEFAULT_OPTIONS : list pystr :=
  Eval vm_compute in
    [ u "歴史的に重要な場所である";
      u "最近建設された建物である";
      u "海外にある場所である";
      u "架空の場所である" ].
Definition DEFAULT_EXPLANATION : pystr :=
  Eval vm_compute in u "歴史的に重要な場所として知られています。".

Definition DAIBUTSU : pystr := Eval vm_compute in u "大仏".
Definition HACHIMANGU : pystr := Eval vm_compute in u "八幡宮".
Definition YORITOMO : pystr := Eval vm_compute in u "源頼朝".

Definition WHICH_IS_CORRECT : pystr :=
  Eval vm_compute in u "について正しいものはどれでしょう？".
Definition WHO_IS_RELATED : pystr :=
  Eval vm_compute in u "と関係が深い人物は誰でしょう？".

Definition DAIBUTSU_OPTIONS : list pystr :=
  Eval vm_compute in
    [ u "13世紀に建立された国宝である";
      u "最近作られたレプリカである";
      u "海外から輸入された仏像である";
      u "実際には存在しない伝説上の仏像である" ].
Definition DAIBUTSU_EXPLANATION : pystr :=
  Eval vm_compute in u "は鎌倉時代に建立された、日本を代表する文化財です。".

Definition HACHIMANGU_OPTIONS : list pystr :=
  Eval vm_compute in [ YORITOMO; u "織田信長"; u "豊臣秀吉"; u "徳川家康" ].
Definition HACHIMANGU_EXPLANATION : pystr :=
  Eval vm_compute in
    u "は源頼朝によって鎌倉幕府の守護神として崇敬されました。".

Definition GENERIC_OPTIONS : list pystr :=
  Eval vm_compute in
    [ u "歴史的に重要な場所である";
      u "最近建設された観光地である";
      u "架空の場所である";
      u "海外にある場所である" ].
Definition GENERIC_EXPLANATION : pystr :=
  Eval vm_compute in u "は長い歴史を持つ重要な文化遺産です。".

Definition OPENAI : pystr := Eval vm_compute in u "openai".
Definition FALLBACK : pystr := Eval vm_compute in u "fallback".

(** The pieces of the prompt f-string of [_generate_quiz_with_openai]. *)
Definition NL : pystr := [10%N].
Definition PROMPT_ABOUT : pystr := Eval vm_compute in u "について".
Definition PROMPT_LEVEL : pystr :=
  Eval vm_compute in u "レベルのクイズを1問作成してください。".
Definition PROMPT_SPOT_INFO : pystr := Eval vm_compute in u "スポット情報: ".
Definition PROMPT_FORMAT : list pystr :=
  Eval vm_compute in
    [ u "以下の形式で回答:";
      u "問題: [4択問題文]";
      u "1. [選択肢1]";
      u "2. [選択肢2]";
      u "3. [選択肢3]";
      u "4. [選択肢4]";
      u "正解: [1-4の数字]";
      u "解説: [簡潔な解説文]" ].

End Text.

(** Inputs used in the examples below. *)
Module Sample.
Import String.
Import Literal.
Local Open Scope string_scope.

Definition A : pystr := Eval vm_compute in u "A".
Definition B : pystr := Eval vm_compute in u "B".
Definition C : pystr := Eval vm_compute in u "C".
Definition D : pystr := Eval vm_compute in u "D".
Definition E : pystr := Eval vm_compute in u "E".
Definition Q : pystr := Eval vm_compute in u "Q".

Definition WELL_FORMED : pystr :=
  Eval vm_compute in
    text ["問題: Q"; "1. A"; "2. B"; "3. C"; "4. D"; "正解: 2"; "解説: E"].
Definition ANSWER_NINE : pystr := Eval vm_compute in u "正解: 9".
Definition ANSWER_NOT_A_NUMBER : pystr := Eval vm_compute in u "正解: B".
Definition ANSWER_MARK_TWICE : pystr := Eval vm_compute in u "正解:正解:3".
Definition TWO_OPTIONS : pystr :=
  Eval vm_compute in text ["問題: Q"; "1. A"; "2. B"].
Definition FIVE_OPTIONS : pystr :=
  Eval vm_compute in text ["1. A"; "2. B"; "3. C"; "4. D"; "1. E"].
Definition SAME_OPTION_FOUR_TIMES : pystr :=
  Eval vm_compute in text ["1. A"; "2. A"; "3. A"; "4. A"].
Definition BARE_OPTION_MARKS : pystr :=
  Eval vm_compute in text ["1."; "2."; "3."; "4."].
Definition EVERY_FIELD_TWICE : pystr :=
  Eval vm_compute in
    text ["問題: A"; "正解: 4"; "解説: C"; "1. D";
          "問題: B"; "正解: 2"; "解説: E"; "2. Q"].

Definition KAMAKURA_DAIBUTSU : pystr := Eval vm_compute in u "鎌倉大仏".
Definition TSURUGAOKA_HACHIMANGU : pystr := Eval vm_compute in u "鶴岡八幡宮".
Definition HACHIMANGU_AND_DAIBUTSU : pystr :=
  Eval vm_compute in u "八幡宮と大仏".
Definition ENOSHIMA : pystr := Eval vm_compute in u "江ノ島".
Definition DESCRIPTION : pystr := Eval vm_compute in u "鎌倉の名所".

End Sample.

(** ** The quiz record *)

Record Quiz : Type := mkQuiz {
  question : pystr;
  options : list pystr;
  correct_answer : Z;
  explanation : pystr;
  points : Z
}.

(** ** Fallback catalog *)

(** [{"小学生": 10, "中学生": 15, "高校生": 20}.get(difficulty, 15)], the
    expression of both [_generate_quiz_with_openai] and
    [_get_fallback_quiz]. *)
Definition POINTS_TABLE : list (pyval * Z) :=
  [ (PyStr Text.ELEMENTARY, 10%Z);
    (PyStr Text.MIDDLE, 15%Z);
    (PyStr Text.HIGH, 20%Z) ].

Definition points_for (difficulty : pyval) : Z :=
  dict_get POINTS_TABLE difficulty 15.

Definition _get_fallback_quiz (spot_name : pystr) (difficulty : pyval) : Quiz :=
  let points := points_for difficulty in
  if contains spot_name Text.DAIBUTSU then
    {| question := spot_name ++ Text.WHICH_IS_CORRECT;
       options := Text.DAIBUTSU_OPTIONS;
       correct_answer := 0;
       explanation := spot_name ++ Text.DAIBUTSU_EXPLANATION;
       points := points |}
  else if contains spot_name Text.HACHIMANGU then
    {| question := spot_name ++ Text.WHO_IS_RELATED;
       options := Text.HACHIMANGU_OPTIONS;
       correct_answer := 0;
       explanation := spot_name ++ Text.HACHIMANGU_EXPLANATION;
       points := points |}
  else
    {| question := spot_name ++ Text.WHICH_IS_CORRECT;
       options := Text.GENERIC_OPTIONS;
       correct_answer := 0;
       explanation := spot_name ++ Text.GENERIC_EXPLANATION;
       points := points |}.

(** ** [int(str)] *)

(** C's [isspace] on ASCII ([Py_ISSPACE]), which [PyLong_FromString] skips. *)
Definition ascii_isspace (c : codepoint) : bool :=
  ((0x09 <=? c) && (c <=? 0x0D) || (c =? 0x20))%N.

Definition is_ascii_digit (c : codepoint) : bool :=
  ((0x30 <=? c) && (c <=? 0x39))%N.

Definition UNDERSCORE : codepoint := 0x5F%N.
Definition PLUS : codepoint := 0x2B%N.
Definition MINUS : codepoint := 0x2D%N.

(** The run of digits, single underscores allowed between two digits:
    [prev] is the character before, [value] and [digits] what was read so
    far. Returns the value, the number of digits and the unread rest, or
    [None] where an underscore is doubled or trails. *)
Fixpoint scan_digits (prev : codepoint) (value : Z) (digits : nat) (s : pystr)
  : option (Z * nat * pystr) :=
  match s with
  | c :: s' =>
    if is_ascii_digit c
    then scan_digits c (10 * value + Z.of_N (c - 0x30)) (S digits) s'
    else if (c =? UNDERSCORE)%N
    then if (prev =? UNDERSCORE)%N then None
         else scan_digits c value digits s'
    else if (prev =? UNDERSCORE)%N then None
    else Some (value, digits, s)
  | [] => if (prev =? UNDERSCORE)%N then None else Some (value, digits, [])
  end.

(** ** Parser: state, lines and the returned record *)

(** The four variables the loop of [_parse_quiz_response] assigns. *)
Record scan_state : Type := mkScan {
  st_question : pystr;
  st_options : list pystr;
  st_correct_answer : Z;
  st_explanation : pystr
}.

Definition scan_init : scan_state :=
  {| st_question := []; st_options := []; st_correct_answer := 0;
     st_explanation := [] |}.

(** [response.split('\n')]: [AttributeError] unless [response] is a [str]. *)
Definition split_lines (response : pyval) : result (list pystr) :=
  match response with
  | PyStr s => ok (split s 0x0A%N)
  | PyNone | PyInt _ => raise AttributeError
  end.

(** [[line.strip() for line in pieces if line.strip()]] *)
Definition nonempty_stripped (pieces : list pystr) : list pystr :=
  map strip (filter (fun line => truthy (strip line)) pieces).

(** The dict the [try] block returns. *)
Definition finish (st : scan_state) (points : Z) : Quiz :=
  {| question := str_or (st_question st) Text.DEFAULT_QUESTION;
     options := if length (st_options st) =? 4 then st_options st
                else Text.DEFAULT_OPTIONS;
     correct_answer := Z.max 0 (Z.min 3 (st_correct_answer st));
     explanation := str_or (st_explanation st) Text.DEFAULT_EXPLANATION;
     points := points |}.

(** The stripped, non-empty lines the loop runs over. *)
Definition lines_of (raw_text : pystr) : list pystr :=
  nonempty_stripped (split raw_text 0x0A%N).

Definition is_option_line (line : pystr) : bool :=
  startswith_any line Text.OPTION_MARKS.

(** The option texts in the order the loop appends them. *)
Definition collected_options (raw_text : pystr) : list pystr :=
  map (fun line => strip (slice_from 2 line))
      (filter is_option_line (lines_of raw_text)).

(** ** Orchestrator *)

Record QuizRequest : Type := mkRequest {
  spot_name : pystr;
  spot_description : pystr;
  difficulty : pystr
}.

Record QuizResponse : Type := mkResponse {
  success : bool;
  quiz : option Quiz;
  generated_by : pystr
}.

(** What the code reads of the provider's answer: the [message.content] of
    each choice, and [usage.total_tokens] when [usage] is present. *)
Record ChatCompletion : Type := mkCompletion {
  choices : list pyval;
  usage_total_tokens : option Z
}.

(** The provider behind [openai_client.chat.completions.create], with the
    model name, token limit and temperature that are fixed at start-up: its
    answer to the [n]-th request of the process, given the prompt. *)
Definition provider : Type := nat -> pystr -> result ChatCompletion.

(** The process state a request runs in: the module-level [openai_client]
    and the prompts sent to the provider so far. *)
Record World : Type := mkWorld {
  openai_client : option provider;
  sent : list pystr
}.

(** Code that may call the provider and may raise. *)
Definition M (A : Type) : Type := World -> result A * World.

Definition mret {A} (a : A) : M A := fun w => (ok a, w).

Definition mbind {A B} (m : M A) (k : A -> M B) : M B :=
  fun w =>
    match m w with
    | (inr a, w') => k a w'
    | (inl e, w') => (inl e, w')
    end.

Definition lift {A} (r : result A) : M A := fun w => (r, w).

(** [try: m  except Exception as e: handler e] *)
Definition try_except {A} (m : M A) (handler : exn -> M A) : M A :=
  fun w =>
    match m w with
    | (inr a, w') => (inr a, w')
    | (inl e, w') => handler e w'
    end.

Declare Scope io_scope.
Delimit Scope io_scope with io.
Notation "x <- m ;; k" := (mbind m (fun x => k))
  (at level 61, m at next level, right associativity) : io_scope.

(** [await openai_client.chat.completions.create(...)] *)
Definition chat_completions_create (prompt : pystr) : M ChatCompletion :=
  fun w =>
    match openai_client w with
    | None => (raise AttributeError, w)
    | Some ask =>
      (ask (length (sent w)) prompt,
       {| openai_client := openai_client w; sent := sent w ++ [prompt] |})
    end.

(** [response.choices[0].message.content] *)
Definition first_content (response : ChatCompletion) : result pyval :=
  match choices response with
  | content :: _ => ok content
  | [] => raise IndexError
  end.

(** [response.usage.total_tokens], read for the log line. *)
Definition total_tokens (response : ChatCompletion) : result Z :=
  match usage_total_tokens response with
  | Some n => ok n
  | None => raise AttributeError
  end.

(** The prompt f-string, stripped. *)
Definition build_prompt (spot_name spot_description difficulty : pystr) : pystr :=
  strip (Text.NL ++ spot_name ++ Text.PROMPT_ABOUT ++ difficulty
         ++ Text.PROMPT_LEVEL ++ Text.NL
         ++ Text.NL
         ++ Text.PROMPT_SPOT_INFO ++ spot_description ++ Text.NL
         ++ Text.NL
         ++ flat_map (fun line => line ++ Text.NL) Text.PROMPT_FORMAT).

Definition fallback_response (request : QuizRequest) : QuizResponse :=
  {| success := true;
     quiz := Some (_get_fallback_quiz (spot_name request)
                                      (PyStr (difficulty request)));
     generated_by := Text.FALLBACK |}.

(** ** Sample interpreters, providers and requests for the examples *)

(** A decimal table that knows the fullwidth digits only. *)
Definition fullwidth_decimal (c : codepoint) : option N :=
  if ((0xFF10 <=? c) && (c <=? 0xFF19))%N then Some (c - 0xFF10)%N else None.

Definition no_requests (client : option provider) : World :=
  {| openai_client := client; sent := [] |}.

Definition rate_limited : provider := fun _ _ => raise RateLimitError.
Definition no_choices : provider :=
  fun _ _ => ok {| choices := []; usage_total_tokens := Some 42%Z |}.
Definition no_usage : provider :=
  fun _ _ => ok {| choices := [PyStr Sample.WELL_FORMED];
                   usage_total_tokens := None |}.
Definition well_behaved : provider :=
  fun _ _ => ok {| choices := [PyStr Sample.WELL_FORMED];
                   usage_total_tokens := Some 42%Z |}.
Definition no_content : provider :=
  fun _ _ => ok {| choices := [PyNone]; usage_total_tokens := Some 42%Z |}.

Definition sample_request (spot : pystr) (level : pystr) : QuizRequest :=
  {| spot_name := spot; spot_description := Sample.DESCRIPTION;
     difficulty := level |}.

(** ** Start-up configuration and the status endpoints *)

Module Config.
Import String.
Import Literal.

Definition DEFAULT_ORIGINS : pystr :=
  Eval vm_compute in
    u "http://localhost:3000,http://localhost:3001,http://localhost:3002,http://127.0.0.1:3000,http://127.0.0.1:3001,http://127.0.0.1:3002".
Definition COMMA : codepoint := 0x2C%N.
Definition SK : pystr := Eval vm_compute in u "sk-".
Definition HEALTHY : pystr := Eval vm_compute in u "healthy".

End Config.

Definition SPACE : codepoint := 0x20%N.
Definition NEWLINE : codepoint := 0x0A%N.
Definition CARRIAGE_RETURN : codepoint := 0x0D%N.

(** [sep.join(pieces)] *)
Fixpoint join (sep : pystr) (pieces : list pystr) : pystr :=
  match pieces with
  | [] => []
  | [piece] => piece
  | piece :: more => piece ++ sep ++ join sep more
  end.

(** [os.getenv(name, default)], given the variable's value if it is set. *)
Definition getenv (value : option pystr) (default : pystr) : pystr :=
  match value with
  | Some v => v
  | None => default
  end.

(** [ALLOWED_ORIGINS = os.getenv("ALLOWED_ORIGINS", "...").split(",")] *)
Definition ALLOWED_ORIGINS (env : option pystr) : list pystr :=
  split (getenv env Config.DEFAULT_ORIGINS) Config.COMMA.

(** The client initialisation at import: [AsyncOpenAI] is the constructor,
    which may raise; [OPENAI_API_KEY] is [os.getenv("OPENAI_API_KEY")]. *)
Definition init_client (OPENAI_API_KEY : option pystr)
           (AsyncOpenAI : pystr -> result provider) : option provider :=
  match OPENAI_API_KEY with
  | Some key =>
    if truthy key && startswith key Config.SK then
      match AsyncOpenAI key with
      | inr client => Some client
      | inl _ => None
      end
    else None
  | None => None
  end.

(** The process state once the module is loaded. *)
Definition loaded (OPENAI_API_KEY : option pystr)
           (AsyncOpenAI : pystr -> result provider) : World :=
  {| openai_client := init_client OPENAI_API_KEY AsyncOpenAI; sent := [] |}.

(** [bool(openai_client)] *)
Definition client_truthy (client : option provider) : bool :=
  match client with Some _ => true | None => false end.

(** [bool(OPENAI_API_KEY)], the [api_configured] entry of
    [get_usage_stats]. *)
Definition api_configured (OPENAI_API_KEY : option pystr) : bool :=
  match OPENAI_API_KEY with
  | Some key => truthy key
  | None => false
  end.

(** The dict of [health_check]. *)
Record Health : Type := mkHealth {
  status : pystr;
  openai_available : bool
}.

Definition health_check (w : World) : Health :=
  {| status := Config.HEALTHY;
     openai_available := client_truthy (openai_client w) |}.

(** A line on which none of the four tests of the loop succeeds. *)
Definition unmarked (line : pystr) : bool :=
  negb (startswith line Text.QUESTION_MARK)
  && negb (startswith_any line Text.OPTION_MARKS)
  && negb (startswith line Text.ANSWER_MARK)
  && negb (startswith line Text.EXPLANATION_MARK).

(** A text without a line break and without whitespace at either end. *)
Definition single_trimmed_line (s : pystr) : Prop :=
  strip s = s /\ ~ In NEWLINE s.

(** The structural invariant of a quiz. *)
Definition well_formed (q : Quiz) : Prop :=
  length (options q) = 4
  /\ (0 <= correct_answer q <= 3)%Z
  /\ question q <> []
  /\ explanation q <> [].

(** What the loop keeps of its three text variables. *)
Definition tidy_state (st : scan_state) : Prop :=
  single_trimmed_line (st_question st)
  /\ Forall single_trimmed_line (st_options st)
  /\ single_trimmed_line (st_explanation st).

(** More inputs for the examples. *)
Module More.
Import String.
Import Literal.
Local Open Scope string_scope.

Definition CHATTER : pystr :=
  Eval vm_compute in text ["Sure! Here is your quiz."; ""; "(about Kamakura)"].
Definition FIRST_HALF : pystr :=
  Eval vm_compute in text ["問題: Q"; "1. A"; "2. B"].
Definition SECOND_HALF : pystr :=
  Eval vm_compute in text ["3. C"; "4. D"; "正解: 2"; "解説: E"].
Definition WRONG_FORMAT_KEY : pystr := Eval vm_compute in u "pk-12345".
Definition GOOD_FORMAT_KEY : pystr := Eval vm_compute in u "sk-12345".
Definition TWO_ORIGINS : pystr :=
  Eval vm_compute in u "https://a.example, https://b.example".
Definition PADDED_SPOT : pystr := Eval vm_compute in u "  鎌倉大仏".

End More.

(** The number a run of ASCII digits writes, read left to right as
    [scan_digits] does. *)
Definition decimal_value (digits : pystr) : Z :=
  fold_left (fun value c => (10 * value + Z.of_N (c - 0x30))%Z) digits 0%Z.

Section Interpreter.

(** What the interpreter, not the repository, fixes: the Unicode database's
    decimal value of a non-ASCII character ([Py_UNICODE_TODECIMAL], [None]
    when the character is no decimal digit), and the limit
    [sys.get_int_max_str_digits()] on the digits [int] converts (0: no
    limit). *)
Variable unicode_decimal : codepoint -> option N.
Variable int_max_str_digits : nat.

(** [int] first rewrites its argument to ASCII: non-ASCII whitespace becomes
    a space, a non-ASCII decimal digit its ASCII digit, and anything else
    ends the text with a question mark. *)
Fixpoint to_ascii_decimal (s : pystr) : pystr :=
  match s with
  | [] => []
  | c :: s' =>
    if (c <? 127)%N then c :: to_ascii_decimal s'
    else if isspace c then 0x20%N :: to_ascii_decimal s'
    else match unicode_decimal c with
         | Some d => (0x30 + d)%N :: to_ascii_decimal s'
         | None => [0x3F%N]
         end
  end.

Definition over_digit_limit (digits : nat) : bool :=
  (640 <? digits) && (0 <? int_max_str_digits) && (int_max_str_digits <? digits).

(** [int(s)] in base 10: optional whitespace, an optional sign, digits,
    optional whitespace, and nothing else; [ValueError] otherwise. *)
Definition int (s : pystr) : result Z :=
  let s1 := dropwhile ascii_isspace (to_ascii_decimal s) in
  let '(sign, s2) :=
    match s1 with
    | c :: r =>
      if (c =? PLUS)%N then (1%Z, r)
      else if (c =? MINUS)%N then ((-1)%Z, r)
      else (1%Z, s1)
    | [] => (1%Z, s1)
    end in
  if startswith s2 [UNDERSCORE] then raise ValueError
  else
    match scan_digits 0%N 0%Z 0 s2 with
    | None => raise ValueError
    | Some (value, digits, rest) =>
      if over_digit_limit digits then raise ValueError
      else if (digits =? 0) then raise ValueError
      else if truthy (dropwhile ascii_isspace rest) then raise ValueError
      else ok (sign * value)%Z
    end.

(** ** Response parser *)

(** The body of [for line in lines]. *)
Definition scan_line (st : scan_state) (line : pystr) : result scan_state :=
  if startswith line Text.QUESTION_MARK then
    ok {| st_question := strip (replace line Text.QUESTION_MARK []);
          st_options := st_options st;
          st_correct_answer := st_correct_answer st;
          st_explanation := st_explanation st |}
  else if startswith_any line Text.OPTION_MARKS then
    ok {| st_question := st_question st;
          st_options := st_options st ++ [strip (slice_from 2 line)];
          st_correct_answer := st_correct_answer st;
          st_explanation := st_explanation st |}
  else if startswith line Text.ANSWER_MARK then
    match int (strip (replace line Text.ANSWER_MARK [])) with
    | inr n =>
      ok {| st_question := st_question st;
            st_options := st_options st;
            st_correct_answer := n - 1;
            st_explanation := st_explanation st |}
    | inl e =>
      if is_ValueError e then
        ok {| st_question := st_question st;
              st_options := st_options st;
              st_correct_answer := 0;
              st_explanation := st_explanation st |}
      else raise e
    end
  else if startswith line Text.EXPLANATION_MARK then
    ok {| st_question := st_question st;
          st_options := st_options st;
          st_correct_answer := st_correct_answer st;
          st_explanation := strip (replace line Text.EXPLANATION_MARK []) |}
  else ok st.

(** The [try] block of [_parse_quiz_response]. *)
Definition parse_body (response : pyval) (points : Z) : result Quiz :=
  (pieces <- split_lines response ;;
   st <- for_each scan_line (nonempty_stripped pieces) scan_init ;;
   ok (finish st points))%result.

Definition _parse_quiz_response (response : pyval) (points : Z) : Quiz :=
  match parse_body response points with
  | inr quiz => quiz
  | inl _ => _get_fallback_quiz [] (PyInt 15)
  end.

Definition _generate_quiz_with_openai
  (spot_name spot_description difficulty : pystr) : M Quiz :=
  let points := points_for (PyStr difficulty) in
  let prompt := build_prompt spot_name spot_description difficulty in
  (response <- chat_completions_create prompt ;;
   quiz_text <- lift (first_content response) ;;
   let parsed_quiz := _parse_quiz_response quiz_text points in
   _ <- lift (total_tokens response) ;;
   mret parsed_quiz)%io.

Definition generate_ai_quiz (request : QuizRequest) : M QuizResponse :=
  fun w =>
    match openai_client w with
    | None => mret (fallback_response request) w
    | Some _ =>
      try_except
        (quiz_data <- _generate_quiz_with_openai
                        (spot_name request) (spot_description request)
                        (difficulty request) ;;
         mret {| success := true;
                 quiz := Some quiz_data;
                 generated_by := Text.OPENAI |})%io
        (fun _ => mret (fallback_response request))
        w
    end.

(** What an answer line assigns: [int(...) - 1], or 0 on [ValueError]. *)
Definition answer_of (line : pystr) : Z :=
  match int (strip (replace line Text.ANSWER_MARK [])) with
  | inr n => n - 1
  | inl _ => 0
  end.

(** The loop body as a total function, by the kind of the line
    ([scan_line_returns] shows that [scan_line] returns exactly this). *)
Definition scan_line_value (st : scan_state) (line : pystr) : scan_state :=
  if startswith line Text.QUESTION_MARK then
    mkScan (strip (replace line Text.QUESTION_MARK []))
           (st_options st) (st_correct_answer st) (st_explanation st)
  else if is_option_line line then
    mkScan (st_question st)
           (st_options st ++ [strip (slice_from 2 line)])
           (st_correct_answer st) (st_explanation st)
  else if startswith line Text.ANSWER_MARK then
    mkScan (st_question st) (st_options st) (answer_of line)
           (st_explanation st)
  else if startswith line Text.EXPLANATION_MARK then
    mkScan (st_question st) (st_options st) (st_correct_answer st)
           (strip (replace line Text.EXPLANATION_MARK []))
  else st.

(** * Properties *)

(** ** String helpers *)

Lemma startswith_app (old rest : pystr) : startswith (old ++ rest) old = true.
Proof.
  induction old as [|o old IH]; simpl; [reflexivity|].
  now rewrite N.eqb_refl, IH.
Qed.

Lemma replace_from_skip (old new xs rest : pystr) :
  replace_from old new (length xs) (xs ++ rest) = replace_from old new 0 rest.
Proof.
  induction xs as [|x xs IH]; simpl; [|exact IH].
  destruct rest; reflexivity.
Qed.

Lemma replace_from_absent (old new s : pystr) :
  contains s old = false -> replace_from old new 0 s = s.
Proof.
  induction s as [|c s IH]; intros H; [reflexivity|].
  cbn [contains] in H. apply orb_false_iff in H as [Hhere Hlater].
  cbn [replace_from]. rewrite Hhere. f_equal. now apply IH.
Qed.

(** Removing a marker from a line that starts with it and holds it nowhere
    else leaves what follows the marker. *)
Lemma replace_leading_only (old rest : pystr) :
  old <> [] -> contains rest old = false ->
  replace (old ++ rest) old [] = rest.
Proof.
  intros Hne Habsent. destruct old as [|o old]; [congruence|].
  unfold replace. change ((o :: old) ++ rest) with (o :: (old ++ rest)).
  cbn [replace_from].
  change (o :: (old ++ rest)) with ((o :: old) ++ rest).
  rewrite startswith_app. cbn [app].
  replace (length (o :: old) - 1) with (length old) by (cbn [length]; lia).
  rewrite replace_from_skip. now apply replace_from_absent.
Qed.

Lemma str_or_truthy (a b : pystr) : truthy b = true -> truthy (str_or a b) = true.
Proof.
  intros Hb. unfold str_or. destruct (truthy a) eqn:Ha; assumption.
Qed.

(** ** [int] raises nothing but [ValueError] *)

Lemma int_only_ValueError (s : pystr) (e : exn) : int s = inl e -> e = ValueError.
Proof.
  unfold int, raise, ok.
  destruct (dropwhile ascii_isspace (to_ascii_decimal s)) as [|c r].
  - cbn. intros H. now inversion H.
  - destruct (c =? PLUS)%N; [|destruct (c =? MINUS)%N];
      (match goal with |- context [startswith ?x ?y] => destruct (startswith x y) end;
       [intros H; now inversion H|]);
      (match goal with |- context [scan_digits ?a ?b ?c ?d] =>
         destruct (scan_digits a b c d) as [[[value digits] rest]|] end;
       [|intros H; now inversion H]);
      destruct (over_digit_limit digits); try (intros H; now inversion H);
      destruct (digits =? 0); try (intros H; now inversion H);
      destruct (truthy (dropwhile ascii_isspace rest)); intros H; now inversion H.
Qed.

(** ** [int] rejects text with a foreign character *)

Lemma dropwhile_keeps (p : codepoint -> bool) (c : codepoint) (s : pystr) :
  In c s -> p c = false -> In c (dropwhile p s).
Proof.
  intros Hin Hp. induction s as [|a s IH]; [contradiction|].
  cbn [dropwhile]. destruct (p a) eqn:Ha; [|exact Hin].
  destruct Hin as [->|Hin]; [congruence|now apply IH].
Qed.

Lemma scan_digits_keeps (c : codepoint) (s : pystr) :
  is_ascii_digit c = false -> (c =? UNDERSCORE)%N = false ->
  forall prev value digits value' digits' rest,
    scan_digits prev value digits s = Some (value', digits', rest) ->
    In c s -> In c rest.
Proof.
  intros Hdigit Hunder.
  induction s as [|a s IH]; intros prev value digits value' digits' rest Hscan Hin;
    [contradiction|].
  cbn [scan_digits] in Hscan.
  destruct (is_ascii_digit a) eqn:Ha.
  { destruct Hin as [->|Hin]; [congruence|]. eapply IH; eassumption. }
  destruct (a =? UNDERSCORE)%N eqn:Hu.
  { destruct (prev =? UNDERSCORE)%N; [discriminate|].
    destruct Hin as [->|Hin]; [congruence|]. eapply IH; eassumption. }
  destruct (prev =? UNDERSCORE)%N; [discriminate|].
  inversion Hscan; subst. exact Hin.
Qed.

Lemma digits_reject_foreign (c : codepoint) (sign : Z) (s2 : pystr) :
  In c s2 ->
  is_ascii_digit c = false -> (c =? UNDERSCORE)%N = false ->
  ascii_isspace c = false ->
  (if startswith s2 [UNDERSCORE] then raise ValueError
   else
     match scan_digits 0%N 0%Z 0 s2 with
     | None => raise ValueError
     | Some (value, digits, rest) =>
       if over_digit_limit digits then raise ValueError
       else if (digits =? 0) then raise ValueError
       else if truthy (dropwhile ascii_isspace rest) then raise ValueError
       else ok (sign * value)%Z
     end) = raise ValueError.
Proof.
  intros H2 Hdigit Hunder Hspace.
  destruct (startswith s2 [UNDERSCORE]); [reflexivity|].
  destruct (scan_digits 0%N 0%Z 0 s2) as [[[value digits] rest]|] eqn:Hscan;
    [|reflexivity].
  destruct (over_digit_limit digits); [reflexivity|].
  destruct (digits =? 0); [reflexivity|].
  pose proof (scan_digits_keeps c s2 Hdigit Hunder _ _ _ Hscan H2) as H3.
  pose proof (dropwhile_keeps ascii_isspace c _ H3 Hspace) as H4.
  destruct (dropwhile ascii_isspace rest); [contradiction|reflexivity].
Qed.

Lemma int_rejects_foreign (c : codepoint) (s : pystr) :
  In c (to_ascii_decimal s) ->
  is_ascii_digit c = false -> (c =? UNDERSCORE)%N = false ->
  ascii_isspace c = false -> (c =? PLUS)%N = false -> (c =? MINUS)%N = false ->
  int s = raise ValueError.
Proof.
  intros Hin Hdigit Hunder Hspace Hplus Hminus. unfold int.
  pose proof (dropwhile_keeps ascii_isspace c _ Hin Hspace) as H1.
  destruct (dropwhile ascii_isspace (to_ascii_decimal s)) as [|c0 r];
    [contradiction|].
  destruct (c0 =? PLUS)%N eqn:Hp; [|destruct (c0 =? MINUS)%N eqn:Hm];
    apply digits_reject_foreign with (c := c); try assumption;
    destruct H1 as [->|H1]; congruence || assumption.
Qed.

Lemma to_ascii_keeps_colon (s : pystr) :
  In 0x3A%N s ->
  In 0x3A%N (to_ascii_decimal s) \/ In 0x3F%N (to_ascii_decimal s).
Proof.
  induction s as [|a s IH]; intros Hin; [contradiction|].
  cbn [to_ascii_decimal].
  destruct (a <? 127)%N eqn:Hascii.
  { destruct Hin as [->|Hin]; [left; left; reflexivity|].
    destruct (IH Hin); [left|right]; right; assumption. }
  assert (Hlater : In 0x3A%N s).
  { destruct Hin as [->|Hin]; [discriminate|exact Hin]. }
  destruct (isspace a).
  { destruct (IH Hlater); [left|right]; right; assumption. }
  destruct (unicode_decimal a).
  { destruct (IH Hlater); [left|right]; right; assumption. }
  right; left; reflexivity.
Qed.

(** No text with a colon in it is an integer for [int]. *)
Lemma int_rejects_colon (s : pystr) : In 0x3A%N s -> int s = raise ValueError.
Proof.
  intros Hin. destruct (to_ascii_keeps_colon s Hin) as [H|H];
    eapply int_rejects_foreign; try exact H; reflexivity.
Qed.

(** ** One step of the loop *)

(** The four kinds of marked line exclude one another: their first
    characters differ. *)
Ltac first_char line :=
  destruct line as [|?c line]; [discriminate|];
  cbn [startswith startswith_any existsb andb orb
       Text.QUESTION_MARK Text.ANSWER_MARK Text.EXPLANATION_MARK
       Text.OPTION_MARKS] in *;
  repeat match goal with
         | H : context [(?c =? ?k)%N] |- _ =>
           is_var c; destruct (N.eqb_spec c k); [subst c|];
           cbn [andb orb] in H; try discriminate H
         end.

Lemma option_line_not_question (line : pystr) :
  is_option_line line = true -> startswith line Text.QUESTION_MARK = false.
Proof.
  unfold is_option_line. intros H. first_char line; reflexivity.
Qed.

Lemma answer_line_not_earlier (line : pystr) :
  startswith line Text.ANSWER_MARK = true ->
  startswith line Text.QUESTION_MARK = false /\ is_option_line line = false.
Proof.
  unfold is_option_line. intros H. first_char line. split; reflexivity.
Qed.

Lemma explanation_line_not_earlier (line : pystr) :
  startswith line Text.EXPLANATION_MARK = true ->
  startswith line Text.QUESTION_MARK = false
  /\ is_option_line line = false
  /\ startswith line Text.ANSWER_MARK = false.
Proof.
  unfold is_option_line. intros H. first_char line. repeat split; reflexivity.
Qed.

(** The body never raises: the one exception [int] can raise is the one the
    inner [except] catches. *)
Lemma scan_line_returns (st : scan_state) (line : pystr) :
  scan_line st line = ok (scan_line_value st line).
Proof.
  unfold scan_line, scan_line_value, is_option_line, answer_of.
  destruct (startswith line Text.QUESTION_MARK); [reflexivity|].
  destruct (startswith_any line Text.OPTION_MARKS); [reflexivity|].
  destruct (startswith line Text.ANSWER_MARK);
    [|destruct (startswith line Text.EXPLANATION_MARK); reflexivity].
  destruct (int (strip (replace line Text.ANSWER_MARK []))) as [e|n] eqn:Hint;
    [|reflexivity].
  apply int_only_ValueError in Hint. subst e. reflexivity.
Qed.

Lemma for_each_scan_returns (lines : list pystr) (st : scan_state) :
  for_each scan_line lines st = ok (fold_left scan_line_value lines st).
Proof.
  revert st. induction lines as [|line lines IH]; intros st; [reflexivity|].
  cbn [for_each fold_left]. rewrite scan_line_returns. cbn [rbind ok].
  apply IH.
Qed.

(** ** The whole loop *)

(** A field that only lines of one kind assign holds what the last line of
    that kind assigned. *)
Section LastWins.

Variable A : Type.
Variable field : scan_state -> A.
Variable marked : pystr -> bool.
Variable assigned : pystr -> A.

Hypothesis marked_assigns : forall st line,
  marked line = true -> field (scan_line_value st line) = assigned line.
Hypothesis unmarked_keeps : forall st line,
  marked line = false -> field (scan_line_value st line) = field st.

Lemma unmarked_lines_keep (lines : list pystr) (st : scan_state) :
  forallb (fun line => negb (marked line)) lines = true ->
  field (fold_left scan_line_value lines st) = field st.
Proof.
  revert st. induction lines as [|line lines IH]; intros st H; [reflexivity|].
  cbn [forallb] in H. apply andb_true_iff in H as [Hline Hrest].
  cbn [fold_left]. rewrite (IH _ Hrest).
  apply unmarked_keeps. now apply negb_true_iff.
Qed.

Lemma last_marked_wins (before after : list pystr) (line : pystr)
      (st : scan_state) :
  marked line = true ->
  forallb (fun l => negb (marked l)) after = true ->
  field (fold_left scan_line_value (before ++ line :: after) st)
  = assigned line.
Proof.
  intros Hline Hafter. rewrite fold_left_app. cbn [fold_left].
  rewrite (unmarked_lines_keep _ _ Hafter). now apply marked_assigns.
Qed.

End LastWins.

Lemma question_last_wins (before after : list pystr) (line : pystr) :
  startswith line Text.QUESTION_MARK = true ->
  forallb (fun l => negb (startswith l Text.QUESTION_MARK)) after = true ->
  st_question (fold_left scan_line_value (before ++ line :: after) scan_init)
  = strip (replace line Text.QUESTION_MARK []).
Proof.
  apply (last_marked_wins st_question
           (fun l => startswith l Text.QUESTION_MARK)
           (fun l => strip (replace l Text.QUESTION_MARK []))).
  - intros st l H. unfold scan_line_value. now rewrite H.
  - intros st l H. unfold scan_line_value. rewrite H.
    repeat match goal with |- context [if ?b then _ else _] => destruct b end;
      reflexivity.
Qed.

Lemma answer_last_wins (before after : list pystr) (line : pystr) :
  startswith line Text.ANSWER_MARK = true ->
  forallb (fun l => negb (startswith l Text.ANSWER_MARK)) after = true ->
  st_correct_answer
    (fold_left scan_line_value (before ++ line :: after) scan_init)
  = answer_of line.
Proof.
  apply (last_marked_wins st_correct_answer
           (fun l => startswith l Text.ANSWER_MARK) answer_of).
  - intros st l H. unfold scan_line_value.
    destruct (answer_line_not_earlier _ H) as [Hq Ho].
    now rewrite Hq, Ho, H.
  - intros st l H. unfold scan_line_value. rewrite H.
    repeat match goal with |- context [if ?b then _ else _] => destruct b end;
      reflexivity.
Qed.

Lemma explanation_last_wins (before after : list pystr) (line : pystr) :
  startswith line Text.EXPLANATION_MARK = true ->
  forallb (fun l => negb (startswith l Text.EXPLANATION_MARK)) after = true ->
  st_explanation
    (fold_left scan_line_value (before ++ line :: after) scan_init)
  = strip (replace line Text.EXPLANATION_MARK []).
Proof.
  apply (last_marked_wins st_explanation
           (fun l => startswith l Text.EXPLANATION_MARK)
           (fun l => strip (replace l Text.EXPLANATION_MARK []))).
  - intros st l H. unfold scan_line_value.
    destruct (explanation_line_not_earlier _ H) as (Hq & Ho & Ha).
    now rewrite Hq, Ho, Ha, H.
  - intros st l H. unfold scan_line_value. rewrite H.
    repeat match goal with |- context [if ?b then _ else _] => destruct b end;
      reflexivity.
Qed.

(** Option lines append, in the order met. *)
Lemma options_accumulate (lines : list pystr) (st : scan_state) :
  st_options (fold_left scan_line_value lines st)
  = st_options st
    ++ map (fun line => strip (slice_from 2 line)) (filter is_option_line lines).
Proof.
  revert st. induction lines as [|line lines IH]; intros st.
  - cbn. now rewrite app_nil_r.
  - cbn [fold_left filter]. rewrite IH. unfold scan_line_value at 1.
    destruct (is_option_line line) eqn:Ho.
    + rewrite (option_line_not_question _ Ho). cbn [st_options map].
      now rewrite <- app_assoc.
    + repeat match goal with |- context [if ?b then _ else _] => destruct b end;
        reflexivity.
Qed.

(** ** The parser on a string *)

Lemma truthy_nonempty (s : pystr) : truthy s = true <-> s <> [].
Proof.
  destruct s; cbn; split; intros H; congruence.
Qed.

Lemma parse_body_str (raw_text : pystr) (pts : Z) :
  parse_body (PyStr raw_text) pts
  = ok (finish (fold_left scan_line_value (lines_of raw_text) scan_init) pts).
Proof.
  unfold parse_body, split_lines. cbn [rbind ok].
  fold (lines_of raw_text). now rewrite for_each_scan_returns.
Qed.

Lemma parse_str (raw_text : pystr) (pts : Z) :
  _parse_quiz_response (PyStr raw_text) pts
  = finish (fold_left scan_line_value (lines_of raw_text) scan_init) pts.
Proof.
  unfold _parse_quiz_response. now rewrite parse_body_str.
Qed.

(** For a [response] that is no string the [try] block raises and the
    handler answers with the generic fallback quiz, worth 15 points whatever
    [points] was. *)
Lemma parse_non_str (pts : Z) :
  parse_body PyNone pts = raise AttributeError
  /\ _parse_quiz_response PyNone pts = _get_fallback_quiz [] (PyInt 15)
  /\ points (_parse_quiz_response PyNone pts) = 15%Z.
Proof.
  repeat split.
Qed.

Lemma default_texts_nonempty :
  truthy Text.DEFAULT_QUESTION = true /\ truthy Text.DEFAULT_EXPLANATION = true.
Proof.
  split; reflexivity.
Qed.

Lemma finish_options_length (st : scan_state) (pts : Z) :
  length (options (finish st pts)) = 4.
Proof.
  cbn [finish options].
  destruct (length (st_options st) =? 4) eqn:H; [|reflexivity].
  now apply Nat.eqb_eq.
Qed.

Lemma finish_answer_clamped (st : scan_state) (pts : Z) :
  (0 <= correct_answer (finish st pts) <= 3)%Z.
Proof.
  cbn [finish correct_answer]. lia.
Qed.

(** C1: for every string [raw_text] and every integer [points], the parser
    returns a quiz with exactly 4 options, an answer index in [0,3], and a
    non-empty question and explanation, however malformed or empty
    [raw_text] is. *)
Theorem C1_parse_quiz_invariant (raw_text : pystr) (pts : Z) :
  let q := _parse_quiz_response (PyStr raw_text) pts in
  length (options q) = 4
  /\ (0 <= correct_answer q <= 3)%Z
  /\ question q <> []
  /\ explanation q <> [].
Proof.
  cbv zeta. rewrite parse_str.
  destruct default_texts_nonempty as [Hq He].
  split; [apply finish_options_length|].
  split; [apply finish_answer_clamped|].
  split; apply truthy_nonempty; cbn [finish question explanation];
    now apply str_or_truthy.
Qed.

(** C7: the options the loop collected are returned only when there are
    exactly 4 of them; with fewer or more, all of them are dropped and the
    fixed generic list of 4 options is returned in their place. *)
Theorem C7_option_count (raw_text : pystr) (pts : Z) :
  exists st,
    for_each scan_line (lines_of raw_text) scan_init = ok st
    /\ st_options st = collected_options raw_text
    /\ options (_parse_quiz_response (PyStr raw_text) pts)
       = if length (st_options st) =? 4 then st_options st
         else Text.DEFAULT_OPTIONS.
Proof.
  exists (fold_left scan_line_value (lines_of raw_text) scan_init).
  split; [apply for_each_scan_returns|].
  split; [apply options_accumulate|].
  now rewrite parse_str.
Qed.

(** C9: for every string [raw_text] the [try] block of the parser returns
    (the catch-all handler, which would answer with a 15-point fallback
    quiz, is not reached), and the quiz carries the caller's [points]. *)
Theorem C9_points_passthrough (raw_text : pystr) (pts : Z) :
  (exists q, parse_body (PyStr raw_text) pts = ok q
             /\ _parse_quiz_response (PyStr raw_text) pts = q)
  /\ points (_parse_quiz_response (PyStr raw_text) pts) = pts.
Proof.
  split.
  - eexists. split; [apply parse_body_str | apply parse_str].
  - now rewrite parse_str.
Qed.

(** C10: among several lines with the same field marker the last one
    decides the question, the answer and the explanation, each assignment
    overwriting the one before; option lines instead append to the list, in
    the order met. *)
Theorem C10_last_marker_wins (raw_text : pystr) :
  exists st,
    for_each scan_line (lines_of raw_text) scan_init = ok st
    /\ (forall pts, _parse_quiz_response (PyStr raw_text) pts = finish st pts)
    /\ (forall before line after,
          lines_of raw_text = before ++ line :: after ->
          startswith line Text.QUESTION_MARK = true ->
          forallb (fun l => negb (startswith l Text.QUESTION_MARK)) after = true ->
          st_question st = strip (replace line Text.QUESTION_MARK []))
    /\ (forall before line after,
          lines_of raw_text = before ++ line :: after ->
          startswith line Text.ANSWER_MARK = true ->
          forallb (fun l => negb (startswith l Text.ANSWER_MARK)) after = true ->
          st_correct_answer st
          = match int (strip (replace line Text.ANSWER_MARK [])) with
            | inr n => (n - 1)%Z
            | inl _ => 0%Z
            end)
    /\ (forall before line after,
          lines_of raw_text = before ++ line :: after ->
          startswith line Text.EXPLANATION_MARK = true ->
          forallb (fun l => negb (startswith l Text.EXPLANATION_MARK)) after = true ->
          st_explanation st = strip (replace line Text.EXPLANATION_MARK []))
    /\ st_options st
       = map (fun line => strip (slice_from 2 line))
             (filter (fun line => startswith_any line Text.OPTION_MARKS)
                     (lines_of raw_text)).
Proof.
  exists (fold_left scan_line_value (lines_of raw_text) scan_init).
  split; [apply for_each_scan_returns|].
  split; [intros pts; apply parse_str|].
  split; [intros before line after -> ; apply question_last_wins|].
  split; [intros before line after -> ; apply answer_last_wins|].
  split; [intros before line after -> ; apply explanation_last_wins|].
  apply options_accumulate.
Qed.

(** ** The answer line *)

(** C6 (as amended): a line that begins with the answer marker has every
    occurrence of the marker removed; what is left, trimmed, is read as an
    integer and 1 is subtracted, and when it is no integer the answer is 0.
    Where the marker occurs only at the start of the line, what is left is
    the remainder after the marker. The returned answer is the loop's value
    clamped into [0,3]: the line "正解: 9" yields 3. *)
Theorem C6_answer_line :
  (forall st line,
      startswith line Text.ANSWER_MARK = true ->
      scan_line st line
      = ok {| st_question := st_question st;
              st_options := st_options st;
              st_correct_answer :=
                match int (strip (replace line Text.ANSWER_MARK [])) with
                | inr n => (n - 1)%Z
                | inl _ => 0%Z
                end;
              st_explanation := st_explanation st |})
  /\ (forall rest,
         contains rest Text.ANSWER_MARK = false ->
         replace (Text.ANSWER_MARK ++ rest) Text.ANSWER_MARK [] = rest)
  /\ (forall raw_text pts,
         exists st,
           for_each scan_line (lines_of raw_text) scan_init = ok st
           /\ correct_answer (_parse_quiz_response (PyStr raw_text) pts)
              = Z.max 0 (Z.min 3 (st_correct_answer st))
           /\ (0 <= correct_answer (_parse_quiz_response (PyStr raw_text) pts)
               <= 3)%Z)
  /\ (forall pts,
         correct_answer (_parse_quiz_response (PyStr Sample.ANSWER_NINE) pts)
         = 3%Z)
  /\ (forall pts,
         correct_answer
           (_parse_quiz_response (PyStr Sample.ANSWER_NOT_A_NUMBER) pts)
         = 0%Z).
Proof.
  split.
  { intros st line H. rewrite scan_line_returns. unfold scan_line_value.
    destruct (answer_line_not_earlier _ H) as [Hq Ho].
    now rewrite Hq, Ho, H. }
  split.
  { intros rest H. apply replace_leading_only; [discriminate|exact H]. }
  split.
  { intros raw_text pts.
    exists (fold_left scan_line_value (lines_of raw_text) scan_init).
    split; [apply for_each_scan_returns|].
    rewrite parse_str. split; [reflexivity|apply finish_answer_clamped]. }
  split; intros pts; rewrite parse_str; vm_compute; reflexivity.
Qed.

(** ** Options *)

Lemma catalog_options_distinct :
  NoDup Text.DAIBUTSU_OPTIONS /\ NoDup Text.HACHIMANGU_OPTIONS
  /\ NoDup Text.GENERIC_OPTIONS /\ NoDup Text.DEFAULT_OPTIONS.
Proof.
  repeat split;
    repeat (constructor; [cbn; intuition discriminate|]); constructor.
Qed.

Lemma catalog_options_nonempty :
  Forall (fun o => o <> []) Text.DAIBUTSU_OPTIONS
  /\ Forall (fun o => o <> []) Text.HACHIMANGU_OPTIONS
  /\ Forall (fun o => o <> []) Text.GENERIC_OPTIONS
  /\ Forall (fun o => o <> []) Text.DEFAULT_OPTIONS.
Proof.
  repeat split; repeat (constructor; [discriminate|]); constructor.
Qed.

(** C2 (as amended): every quiz has exactly 4 options. Those of the fallback
    catalog are pairwise distinct and non-empty. Those of the parser are
    either the 4 option texts it collected, in order and as they came
    (repeated or empty texts are kept), or the generic default list, whose
    4 entries are pairwise distinct and non-empty. *)
Theorem C2_options_shape :
  (forall spot d,
      let q := _get_fallback_quiz spot d in
      length (options q) = 4
      /\ NoDup (options q)
      /\ Forall (fun o => o <> []) (options q))
  /\ (forall raw_text pts,
         let q := _parse_quiz_response (PyStr raw_text) pts in
         length (options q) = 4
         /\ (options q = collected_options raw_text
             \/ options q = Text.DEFAULT_OPTIONS))
  /\ NoDup Text.DEFAULT_OPTIONS
  /\ Forall (fun o => o <> []) Text.DEFAULT_OPTIONS.
Proof.
  destruct catalog_options_distinct as (Db & Hm & Gn & Df).
  destruct catalog_options_nonempty as (Db' & Hm' & Gn' & Df').
  split.
  { intros spot d. cbv zeta. unfold _get_fallback_quiz.
    destruct (contains spot Text.DAIBUTSU);
      [|destruct (contains spot Text.HACHIMANGU)];
      cbn [options]; repeat split; assumption || reflexivity. }
  split; [|split; assumption].
  intros raw_text pts. cbv zeta. rewrite parse_str.
  split; [apply finish_options_length|].
  cbn [finish options]. rewrite options_accumulate. cbn [scan_init st_options app].
  fold (collected_options raw_text).
  destruct (length (collected_options raw_text) =? 4); [left|right]; reflexivity.
Qed.

(** ** Points *)

Lemma pystr_eqb_eq (a b : pystr) : pystr_eqb a b = true <-> a = b.
Proof.
  unfold pystr_eqb. destruct (list_eq_dec N.eq_dec a b); split; congruence.
Qed.

Lemma pyval_eqb_str (k : pystr) (d : pyval) :
  pyval_eqb (PyStr k) d = true <-> d = PyStr k.
Proof.
  destruct d as [| n | s]; cbn [pyval_eqb]; try (split; congruence).
  rewrite pystr_eqb_eq. split; congruence.
Qed.

Lemma points_for_other (d : pyval) :
  d <> PyStr Text.ELEMENTARY -> d <> PyStr Text.MIDDLE -> d <> PyStr Text.HIGH ->
  points_for d = 15%Z.
Proof.
  intros He Hm Hh. unfold points_for, POINTS_TABLE. cbn [dict_get].
  destruct (pyval_eqb (PyStr Text.ELEMENTARY) d) eqn:E1;
    [apply pyval_eqb_str in E1; contradiction|].
  destruct (pyval_eqb (PyStr Text.MIDDLE) d) eqn:E2;
    [apply pyval_eqb_str in E2; contradiction|].
  destruct (pyval_eqb (PyStr Text.HIGH) d) eqn:E3;
    [apply pyval_eqb_str in E3; contradiction|].
  reflexivity.
Qed.

Lemma fallback_points (spot : pystr) (d : pyval) :
  points (_get_fallback_quiz spot d) = points_for d.
Proof.
  unfold _get_fallback_quiz.
  destruct (contains spot Text.DAIBUTSU);
    [|destruct (contains spot Text.HACHIMANGU)]; reflexivity.
Qed.

(** A provider answer with a first choice and a reported usage makes
    [_generate_quiz_with_openai] return, after one request, what the parser
    makes of the content with the points looked up for the difficulty. *)
Lemma generate_with_content (spot desc d : pystr) (content : pyval)
      (more : list pyval) (tokens : Z) (ask : provider) (w : World) :
  openai_client w = Some ask ->
  ask (length (sent w)) (build_prompt spot desc d)
  = ok {| choices := content :: more; usage_total_tokens := Some tokens |} ->
  _generate_quiz_with_openai spot desc d w
  = (ok (_parse_quiz_response content (points_for (PyStr d))),
     {| openai_client := openai_client w;
        sent := sent w ++ [build_prompt spot desc d] |}).
Proof.
  intros Hclient Hask.
  unfold _generate_quiz_with_openai, mbind, chat_completions_create, lift, mret.
  rewrite Hclient, Hask. reflexivity.
Qed.

(** C4 (as amended): the points are looked up from the difficulty label in
    one table: 小学生 gives 10, 中学生 15, 高校生 20 and any other value 15.
    The fallback catalog returns the points looked up, and the generation
    path passes the same lookup to the parser. The quiz parsed from the
    provider's text carries these points; when the provider's content is no
    text, the parser's handler returns its catalog quiz with 15 points,
    whatever the difficulty. *)
Theorem C4_points_lookup :
  points_for (PyStr Text.ELEMENTARY) = 10%Z
  /\ points_for (PyStr Text.MIDDLE) = 15%Z
  /\ points_for (PyStr Text.HIGH) = 20%Z
  /\ (forall d,
         d <> PyStr Text.ELEMENTARY -> d <> PyStr Text.MIDDLE ->
         d <> PyStr Text.HIGH ->
         points_for d = 15%Z)
  /\ (forall spot d, points (_get_fallback_quiz spot d) = points_for d)
  /\ (forall spot desc d content more tokens ask w,
         openai_client w = Some ask ->
         ask (length (sent w)) (build_prompt spot desc d)
         = ok {| choices := content :: more;
                 usage_total_tokens := Some tokens |} ->
         exists w',
           _generate_quiz_with_openai spot desc d w
           = (ok (_parse_quiz_response content (points_for (PyStr d))), w')
           /\ (forall text,
                  content = PyStr text ->
                  points (_parse_quiz_response content (points_for (PyStr d)))
                  = points_for (PyStr d))
           /\ ((forall text, content <> PyStr text) ->
               points (_parse_quiz_response content (points_for (PyStr d)))
               = 15%Z)).
Proof.
  repeat (split; [reflexivity|]).
  split; [exact points_for_other|].
  split; [exact fallback_points|].
  intros spot desc d content more tokens ask w Hclient Hask.
  eexists. split; [eapply generate_with_content; eassumption|].
  split.
  - intros text ->. now rewrite parse_str.
  - intros Hnot. destruct content as [| n | s]; [reflexivity..|].
    now destruct (Hnot s).
Qed.

(** ** Fallback selection *)

(** C5: the fallback catalog tries its substring rules in order and the
    first match decides: a spot name containing 大仏 gets the Great-Buddha
    quiz, also when it contains 八幡宮 too; otherwise one containing 八幡宮
    gets the shrine quiz, whose first option is 源頼朝; otherwise the generic
    quiz. Each has 4 options and answer 0, and the spot name opens both the
    question and the explanation. *)
Theorem C5_fallback_selection (spot : pystr) (d : pyval) :
  (contains spot Text.DAIBUTSU = true ->
   _get_fallback_quiz spot d
   = {| question := spot ++ Text.WHICH_IS_CORRECT;
        options := Text.DAIBUTSU_OPTIONS;
        correct_answer := 0;
        explanation := spot ++ Text.DAIBUTSU_EXPLANATION;
        points := points_for d |})
  /\ (contains spot Text.DAIBUTSU = false ->
      contains spot Text.HACHIMANGU = true ->
      _get_fallback_quiz spot d
      = {| question := spot ++ Text.WHO_IS_RELATED;
           options := Text.HACHIMANGU_OPTIONS;
           correct_answer := 0;
           explanation := spot ++ Text.HACHIMANGU_EXPLANATION;
           points := points_for d |})
  /\ (contains spot Text.DAIBUTSU = false ->
      contains spot Text.HACHIMANGU = false ->
      _get_fallback_quiz spot d
      = {| question := spot ++ Text.WHICH_IS_CORRECT;
           options := Text.GENERIC_OPTIONS;
           correct_answer := 0;
           explanation := spot ++ Text.GENERIC_EXPLANATION;
           points := points_for d |})
  /\ hd_error Text.HACHIMANGU_OPTIONS = Some Text.YORITOMO
  /\ correct_answer (_get_fallback_quiz spot d) = 0%Z
  /\ length (options (_get_fallback_quiz spot d)) = 4.
Proof.
  unfold _get_fallback_quiz.
  split; [intros ->; reflexivity|].
  split; [intros -> ->; reflexivity|].
  split; [intros -> ->; reflexivity|].
  split; [reflexivity|].
  destruct (contains spot Text.DAIBUTSU);
    [|destruct (contains spot Text.HACHIMANGU)]; split; reflexivity.
Qed.

(** ** The endpoint *)

(** With a client configured the endpoint sends exactly one request and
    wraps what [_generate_quiz_with_openai] did: its quiz tagged "openai",
    or the fallback quiz when it raised. *)
Lemma generate_ai_quiz_configured (request : QuizRequest) (w : World)
      (ask : provider) :
  openai_client w = Some ask ->
  let after := {| openai_client := openai_client w;
                  sent := sent w ++ [build_prompt (spot_name request)
                                                  (spot_description request)
                                                  (difficulty request)] |} in
  _generate_quiz_with_openai (spot_name request) (spot_description request)
                             (difficulty request) w
  = (fst (_generate_quiz_with_openai (spot_name request)
                                     (spot_description request)
                                     (difficulty request) w), after)
  /\ generate_ai_quiz request w
     = (ok match fst (_generate_quiz_with_openai
                        (spot_name request) (spot_description request)
                        (difficulty request) w) with
           | inr quiz_data => {| success := true;
                                 quiz := Some quiz_data;
                                 generated_by := Text.OPENAI |}
           | inl _ => fallback_response request
           end, after).
Proof.
  intros Hclient. cbv zeta.
  unfold generate_ai_quiz, try_except, _generate_quiz_with_openai, mbind,
    chat_completions_create, lift, mret.
  rewrite Hclient.
  destruct (ask (length (sent w)) _) as [e|response]; [split; reflexivity|].
  destruct (first_content response) as [e|content]; [split; reflexivity|].
  destruct (total_tokens response) as [e|tokens]; split; reflexivity.
Qed.

(** C3: the endpoint never reports failure. Without a client it returns the
    fallback quiz tagged "fallback" and sends nothing to the provider; when
    generation raises, whatever the exception, it returns that same fallback
    answer; on every path the answer has [success = true]; and one call of
    the endpoint sends the provider at most one request. *)
Theorem C3_generation_never_fails (request : QuizRequest) (w : World) :
  let fallback :=
    {| success := true;
       quiz := Some (_get_fallback_quiz (spot_name request)
                                        (PyStr (difficulty request)));
       generated_by := Text.FALLBACK |} in
  (openai_client w = None -> generate_ai_quiz request w = (ok fallback, w))
  /\ (forall e w',
         openai_client w <> None ->
         _generate_quiz_with_openai (spot_name request)
                                    (spot_description request)
                                    (difficulty request) w = (raise e, w') ->
         generate_ai_quiz request w = (ok fallback, w'))
  /\ (forall quiz_data w',
         openai_client w <> None ->
         _generate_quiz_with_openai (spot_name request)
                                    (spot_description request)
                                    (difficulty request) w = (ok quiz_data, w') ->
         generate_ai_quiz request w
         = (ok {| success := true; quiz := Some quiz_data;
                  generated_by := Text.OPENAI |}, w'))
  /\ (exists response w',
         generate_ai_quiz request w = (ok response, w')
         /\ success response = true
         /\ (sent w' = sent w \/ exists prompt, sent w' = sent w ++ [prompt])).
Proof.
  cbv zeta. destruct (openai_client w) as [ask|] eqn:Hclient.
  - destruct (generate_ai_quiz_configured request w Hclient) as [Hgen Hend].
    cbv zeta in Hgen, Hend.
    split; [discriminate|].
    split.
    { intros e w' _ Hraise. rewrite Hend. rewrite Hraise in Hgen |- *.
      inversion Hgen. reflexivity. }
    split.
    { intros quiz_data w' _ Hok. rewrite Hend. rewrite Hok in Hgen |- *.
      inversion Hgen. reflexivity. }
    rewrite Hend. do 2 eexists. split; [reflexivity|].
    split; [|right; eexists; reflexivity].
    destruct (fst _); reflexivity.
  - assert (Hend : generate_ai_quiz request w = (ok (fallback_response request), w)).
    { unfold generate_ai_quiz. now rewrite Hclient. }
    split; [intros _; exact Hend|].
    split; [intros e w' Hne; congruence|].
    split; [intros q w' Hne; congruence|].
    rewrite Hend. do 2 eexists. split; [reflexivity|].
    split; [reflexivity|left; reflexivity].
Qed.

(** * Further properties *)

Unset Implicit Arguments.

(** ** Splitting and joining *)

Lemma split_nonempty (s : pystr) (sep : codepoint) : split s sep <> [].
Proof.
  destruct s as [|c s]; cbn [split]; [discriminate|].
  destruct (c =? sep)%N; [discriminate|].
  destruct (split s sep); discriminate.
Qed.

Lemma split_app (s t : pystr) (sep : codepoint) :
  split (s ++ sep :: t) sep = split s sep ++ split t sep.
Proof.
  induction s as [|c s IH]; cbn [app split].
  - now rewrite N.eqb_refl.
  - destruct (c =? sep)%N; [now rewrite IH|].
    rewrite IH. pose proof (split_nonempty s sep) as Hne.
    destruct (split s sep) as [|piece pieces]; [congruence|reflexivity].
Qed.

Lemma split_without_sep (s : pystr) (sep : codepoint) :
  ~ In sep s -> split s sep = [s].
Proof.
  induction s as [|c s IH]; intros Hnot; [reflexivity|].
  cbn [split]. destruct (N.eqb_spec c sep) as [->|Hne].
  - exfalso. apply Hnot. now left.
  - rewrite IH; [reflexivity|]. intros Hin. apply Hnot. now right.
Qed.

Lemma split_pieces_without_sep (s : pystr) (sep : codepoint) (piece : pystr) :
  In piece (split s sep) -> ~ In sep piece.
Proof.
  revert piece. induction s as [|c s IH]; intros piece Hin.
  - cbn in Hin. destruct Hin as [<-|[]]. intros [].
  - cbn [split] in Hin. destruct (N.eqb_spec c sep) as [->|Hne].
    + destruct Hin as [<-|Hin]; [intros []|now apply IH].
    + destruct (split s sep) as [|p ps] eqn:Hs.
      * destruct Hin as [<-|[]]. intros [Heq|[]]. congruence.
      * destruct Hin as [<-|Hin].
        -- intros [Heq|Hin']; [congruence|]. apply (IH p); [now left|exact Hin'].
        -- apply IH. now right.
Qed.

Lemma join_split (s : pystr) (sep : codepoint) :
  join [sep] (split s sep) = s.
Proof.
  induction s as [|c s IH]; [reflexivity|].
  cbn [split]. pose proof (split_nonempty s sep) as Hne.
  destruct (N.eqb_spec c sep) as [->|Hc].
  - destruct (split s sep) as [|p ps]; [congruence|].
    change (join [sep] ([] :: p :: ps)) with (sep :: join [sep] (p :: ps)).
    now rewrite IH.
  - destruct (split s sep) as [|p ps]; [congruence|].
    destruct ps as [|p' ps]; cbn [join app] in *; now rewrite IH.
Qed.

(** ** Stripping *)

Lemma dropwhile_length (p : codepoint -> bool) (s : pystr) :
  length (dropwhile p s) <= length s.
Proof.
  induction s as [|c s IH]; cbn [dropwhile length]; [lia|].
  destruct (p c); cbn [length]; lia.
Qed.

Lemma dropwhile_head (p : codepoint -> bool) (s : pystr) (c : codepoint)
      (r : pystr) :
  dropwhile p s = c :: r -> p c = false.
Proof.
  induction s as [|a s IH]; cbn [dropwhile]; [discriminate|].
  destruct (p a) eqn:Ha; [exact IH|]. intros H. inversion H; subst. exact Ha.
Qed.

Lemma dropwhile_stops (p : codepoint -> bool) (c : codepoint) (r : pystr) :
  p c = false -> dropwhile p (c :: r) = c :: r.
Proof.
  intros H. cbn [dropwhile]. now rewrite H.
Qed.

Lemma dropwhile_suffix (p : codepoint -> bool) (s : pystr) :
  exists w, s = w ++ dropwhile p s.
Proof.
  induction s as [|c s [w IH]]; [now exists []|].
  cbn [dropwhile]. destruct (p c).
  - exists (c :: w). cbn [app]. now rewrite <- IH.
  - now exists [].
Qed.

Lemma dropwhile_fixed (p : codepoint -> bool) (c : codepoint) (r : pystr) :
  dropwhile p (c :: r) = c :: r -> p c = false.
Proof.
  intros H. destruct (p c) eqn:Hc; [|reflexivity].
  cbn [dropwhile] in H. rewrite Hc in H.
  pose proof (dropwhile_length p r) as Hlen. rewrite H in Hlen.
  cbn [length] in Hlen. lia.
Qed.

Lemma dropwhile_app_stop (p : codepoint -> bool) (s : pystr) (a : codepoint)
      (r : pystr) :
  p a = false -> dropwhile p (s ++ a :: r) = dropwhile p s ++ a :: r.
Proof.
  intros Ha. induction s as [|c s IH]; cbn [app dropwhile].
  - now rewrite Ha.
  - destruct (p c); [exact IH|reflexivity].
Qed.

Lemma dropwhile_in (p : codepoint -> bool) (c : codepoint) (s : pystr) :
  In c (dropwhile p s) -> In c s.
Proof.
  destruct (dropwhile_suffix p s) as [w Hw]. intros H.
  rewrite Hw. apply in_or_app. now right.
Qed.

Lemma rstrip_snoc_nonspace (s : pystr) (c : codepoint) :
  isspace c = false -> rstrip (s ++ [c]) = s ++ [c].
Proof.
  intros Hc. unfold rstrip. rewrite rev_app_distr. cbn [rev app].
  rewrite (dropwhile_stops isspace c (rev s) Hc). cbn [rev].
  now rewrite rev_involutive.
Qed.

Lemma rstrip_snoc_space (s : pystr) (c : codepoint) :
  isspace c = true -> rstrip (s ++ [c]) = rstrip s.
Proof.
  intros Hc. unfold rstrip. rewrite rev_app_distr. cbn [rev app dropwhile].
  now rewrite Hc.
Qed.

Lemma rstrip_prefix (s : pystr) : exists w, s = rstrip s ++ w.
Proof.
  unfold rstrip. destruct (dropwhile_suffix isspace (rev s)) as [w Hw].
  exists (rev w). rewrite <- rev_app_distr, <- Hw. now rewrite rev_involutive.
Qed.

Lemma rstrip_length (s : pystr) : length (rstrip s) <= length s.
Proof.
  unfold rstrip. rewrite length_rev.
  pose proof (dropwhile_length isspace (rev s)) as H.
  now rewrite length_rev in H.
Qed.

Lemma rstrip_last (s r : pystr) (c : codepoint) :
  rstrip s = r ++ [c] -> isspace c = false.
Proof.
  unfold rstrip. intros H. apply (f_equal (@rev codepoint)) in H.
  rewrite rev_involutive, rev_app_distr in H. cbn [rev app] in H.
  exact (dropwhile_head _ _ _ _ H).
Qed.

Lemma strip_in (c : codepoint) (s : pystr) : In c (strip s) -> In c s.
Proof.
  unfold strip, lstrip. intros H. apply (dropwhile_in isspace).
  destruct (rstrip_prefix (dropwhile isspace s)) as [w Hw].
  rewrite Hw. apply in_or_app. now left.
Qed.

(** A text that begins and ends with a character that is no whitespace is
    left alone by [strip]. *)
Lemma strip_ends (c c' : codepoint) (r r' : pystr) :
  isspace c = false -> isspace c' = false -> c :: r = r' ++ [c'] ->
  strip (c :: r) = c :: r.
Proof.
  intros Hc Hc' Heq. unfold strip, lstrip.
  rewrite (dropwhile_stops isspace c r Hc), Heq.
  now apply rstrip_snoc_nonspace.
Qed.

(** Conversely a non-empty text that [strip] leaves alone begins and ends
    with a character that is no whitespace. *)
Lemma strip_fixed_ends (s : pystr) :
  strip s = s -> s <> [] ->
  (exists c r, s = c :: r /\ isspace c = false)
  /\ (exists r c, s = r ++ [c] /\ isspace c = false).
Proof.
  intros Hfix Hne.
  assert (Hl : lstrip s = s).
  { unfold strip in Hfix. unfold lstrip in *.
    destruct (dropwhile_suffix isspace s) as [w Hw].
    pose proof (rstrip_length (dropwhile isspace s)) as H1.
    rewrite Hfix in H1.
    assert (Hlen : length s = length w + length (dropwhile isspace s)).
    { rewrite Hw at 1. now rewrite length_app. }
    destruct w as [|a w]; [now rewrite Hw at 2|]. cbn [length] in Hlen. lia. }
  assert (Hr : rstrip s = s).
  { unfold strip in Hfix. now rewrite Hl in Hfix. }
  split.
  - destruct s as [|c r]; [congruence|]. exists c, r. split; [reflexivity|].
    apply (dropwhile_fixed isspace c r). exact Hl.
  - destruct (rev s) as [|c r] eqn:Hrev.
    { apply (f_equal (@rev codepoint)) in Hrev.
      rewrite rev_involutive in Hrev. cbn in Hrev. congruence. }
    exists (rev r), c.
    assert (Hs : s = rev r ++ [c]).
    { apply (f_equal (@rev codepoint)) in Hrev.
      now rewrite rev_involutive in Hrev. }
    split; [exact Hs|]. apply (rstrip_last s (rev r) c). now rewrite Hr.
Qed.

(** [strip] is idempotent. *)
Lemma strip_idempotent (s : pystr) : strip (strip s) = strip s.
Proof.
  unfold strip at 2 3. unfold lstrip.
  destruct (dropwhile isspace s) as [|c r] eqn:Hl; [reflexivity|].
  pose proof (dropwhile_head _ _ _ _ Hl) as Hc.
  destruct (rstrip_prefix (c :: r)) as [w Hw].
  destruct (rev (rstrip (c :: r))) as [|c' r'] eqn:Hrev.
  { apply (f_equal (@rev codepoint)) in Hrev.
    rewrite rev_involutive in Hrev. now rewrite Hrev. }
  assert (Hu : rstrip (c :: r) = rev r' ++ [c']).
  { apply (f_equal (@rev codepoint)) in Hrev.
    now rewrite rev_involutive in Hrev. }
  pose proof (rstrip_last _ _ _ Hu) as Hc'.
  destruct (rstrip (c :: r)) as [|a u] eqn:Hrs.
  { destruct (rev r'); discriminate. }
  assert (a = c) as -> by (cbn [app] in Hw; congruence).
  now apply strip_ends with (c' := c') (r' := rev r').
Qed.

Lemma strip_leading_space (c : codepoint) (s : pystr) :
  isspace c = true -> strip (c :: s) = strip s.
Proof.
  intros Hc. unfold strip, lstrip. cbn [dropwhile]. now rewrite Hc.
Qed.

Lemma strip_trailing_space (s : pystr) (c : codepoint) :
  isspace c = true -> strip (s ++ [c]) = strip s.
Proof.
  intros Hc. unfold strip, lstrip.
  destruct (dropwhile isspace s) as [|a r] eqn:Hl.
  - assert (Hall : dropwhile isspace (s ++ [c]) = []).
    { clear - Hl Hc. induction s as [|x s IH]; cbn [app dropwhile] in *.
      - now rewrite Hc.
      - destruct (isspace x); [now apply IH|discriminate]. }
    now rewrite Hall.
  - destruct (dropwhile_suffix isspace s) as [w Hw]. rewrite Hl in Hw.
    assert (Hdrop : dropwhile isspace (s ++ [c]) = (a :: r) ++ [c]).
    { clear - Hl Hc. revert Hl. induction s as [|x s IH]; cbn [app dropwhile].
      - discriminate.
      - destruct (isspace x); [exact IH|]. intros H. now inversion H. }
    rewrite Hdrop. now apply rstrip_snoc_space.
Qed.

(** ** The lines of a text *)

Lemma not_in_by_eqb (c : codepoint) (s : pystr) :
  existsb (N.eqb c) s = false -> ~ In c s.
Proof.
  intros H Hin. assert (existsb (N.eqb c) s = true); [|congruence].
  apply existsb_exists. exists c. split; [exact Hin|apply N.eqb_refl].
Qed.

Lemma lines_of_app (a b : pystr) :
  lines_of (a ++ NEWLINE :: b) = lines_of a ++ lines_of b.
Proof.
  unfold lines_of, nonempty_stripped, NEWLINE.
  now rewrite split_app, filter_app, map_app.
Qed.

Lemma lines_of_single (line : pystr) :
  line <> [] -> strip line = line -> ~ In NEWLINE line ->
  lines_of line = [line].
Proof.
  intros Hne Hfix Hnl. unfold lines_of, nonempty_stripped, NEWLINE in *.
  rewrite (split_without_sep line _ Hnl). cbn [filter]. rewrite Hfix.
  destruct line; [congruence|]. cbn [truthy map]. now rewrite Hfix.
Qed.

(** Every line the loop sees is non-empty, trimmed and free of line
    breaks. *)
Lemma lines_of_shape (raw_text line : pystr) :
  In line (lines_of raw_text) ->
  line <> [] /\ single_trimmed_line line.
Proof.
  unfold lines_of, nonempty_stripped. intros Hin.
  apply in_map_iff in Hin as (piece & <- & Hin).
  apply filter_In in Hin as [Hpiece Htruthy].
  split; [now apply truthy_nonempty|].
  split; [apply strip_idempotent|].
  intros Hnl. apply strip_in in Hnl.
  exact (split_pieces_without_sep _ _ _ Hpiece Hnl).
Qed.

Lemma for_each_app {S X} (body : S -> X -> result S) (xs ys : list X) (st : S) :
  for_each body (xs ++ ys) st = rbind (for_each body xs st) (for_each body ys).
Proof.
  revert st. induction xs as [|x xs IH]; intros st; [reflexivity|].
  cbn [app for_each]. destruct (body st x) as [e|st']; cbn [rbind];
    [reflexivity|apply IH].
Qed.

(** ** What the parsed texts look like *)

Lemma replace_from_in (c : codepoint) (old : pystr) (s : pystr) :
  forall skip, In c (replace_from old [] skip s) -> In c s.
Proof.
  induction s as [|a s IH]; intros skip H; [exact H|].
  cbn [replace_from] in H. destruct skip as [|k].
  - destruct (startswith (a :: s) old).
    + right. exact (IH _ H).
    + destruct H as [->|H]; [now left|right; exact (IH _ H)].
  - right. exact (IH _ H).
Qed.

Lemma replace_in (c : codepoint) (s old : pystr) :
  In c (replace s old []) -> In c s.
Proof.
  unfold replace. destruct old as [|o old]; [|apply replace_from_in].
  cbn [app]. intros H. apply in_flat_map in H as (x & Hx & [->|[]]). exact Hx.
Qed.

Lemma slice_from_in (c : codepoint) (n : nat) (s : pystr) :
  In c (slice_from n s) -> In c s.
Proof.
  unfold slice_from. intros H. rewrite <- (firstn_skipn n s).
  apply in_or_app. now right.
Qed.

Lemma stripped_is_tidy (s : pystr) :
  ~ In NEWLINE s -> single_trimmed_line (strip s).
Proof.
  intros Hnl. split; [apply strip_idempotent|].
  intros H. apply Hnl. now apply strip_in.
Qed.

Lemma scan_line_value_tidy (st : scan_state) (line : pystr) :
  ~ In NEWLINE line -> tidy_state st -> tidy_state (scan_line_value st line).
Proof.
  intros Hnl (Hq & Ho & He). unfold scan_line_value.
  destruct (startswith line Text.QUESTION_MARK).
  { split; [|split; assumption]. cbn [st_question]. apply stripped_is_tidy.
    intros H. apply Hnl. now apply replace_in in H. }
  destruct (is_option_line line).
  { split; [assumption|split; [|assumption]]. cbn [st_options].
    apply Forall_app. split; [assumption|]. constructor; [|constructor].
    apply stripped_is_tidy. intros H. apply Hnl. now apply slice_from_in in H. }
  destruct (startswith line Text.ANSWER_MARK);
    [exact (conj Hq (conj Ho He))|].
  destruct (startswith line Text.EXPLANATION_MARK);
    [|exact (conj Hq (conj Ho He))].
  split; [assumption|split; [assumption|]]. cbn [st_explanation].
  apply stripped_is_tidy. intros H. apply Hnl. now apply replace_in in H.
Qed.

Lemma loop_tidy (lines : list pystr) (st : scan_state) :
  Forall (fun line => ~ In NEWLINE line) lines ->
  tidy_state st -> tidy_state (fold_left scan_line_value lines st).
Proof.
  revert st. induction lines as [|line lines IH]; intros st Hlines Hst;
    [exact Hst|].
  inversion Hlines; subst. cbn [fold_left]. apply IH; [assumption|].
  now apply scan_line_value_tidy.
Qed.

Lemma default_texts_tidy :
  single_trimmed_line Text.DEFAULT_QUESTION
  /\ Forall single_trimmed_line Text.DEFAULT_OPTIONS
  /\ single_trimmed_line Text.DEFAULT_EXPLANATION.
Proof.
  repeat split;
    repeat (constructor; [split|]);
    try (apply not_in_by_eqb); try constructor; reflexivity.
Qed.

(** X2: whatever the text, the question, the options and the explanation of the
    parsed quiz are single lines without whitespace at either end. *)
Theorem parsed_texts_are_trimmed_lines (raw_text : pystr) (pts : Z) :
  single_trimmed_line (question (_parse_quiz_response (PyStr raw_text) pts))
  /\ Forall single_trimmed_line
            (options (_parse_quiz_response (PyStr raw_text) pts))
  /\ single_trimmed_line
       (explanation (_parse_quiz_response (PyStr raw_text) pts)).
Proof.
  rewrite parse_str.
  destruct default_texts_tidy as (Dq & Do & De).
  assert (Hst : tidy_state (fold_left scan_line_value (lines_of raw_text)
                                      scan_init)).
  { apply loop_tidy.
    - apply Forall_forall. intros line Hin.
      now destruct (lines_of_shape _ _ Hin) as (_ & _ & Hnl).
    - repeat split; try constructor; intros []. }
  destruct Hst as (Hq & Ho & He). cbn [finish question options explanation].
  unfold str_or. repeat split.
  - destruct (truthy _); [apply Hq|apply Dq].
  - destruct (truthy _); [apply Hq|apply Dq].
  - destruct (length _ =? 4); assumption.
  - destruct (truthy _); [apply He|apply De].
  - destruct (truthy _); [apply He|apply De].
Qed.

(** ** Texts cut at a line break *)

(** X4: parsing is line by line: the loop over a text cut at a line break is the
    loop over the first part followed by the loop over the second, and the
    options collected are those of the first part followed by those of the
    second. *)
Theorem parser_composes_at_line_breaks (a b : pystr) (st : scan_state) :
  for_each scan_line (lines_of (a ++ NEWLINE :: b)) st
  = rbind (for_each scan_line (lines_of a) st) (for_each scan_line (lines_of b))
  /\ collected_options (a ++ NEWLINE :: b)
     = collected_options a ++ collected_options b.
Proof.
  split.
  - rewrite lines_of_app. apply for_each_app.
  - unfold collected_options. now rewrite lines_of_app, filter_app, map_app.
Qed.

Lemma unmarked_line_skipped (st : scan_state) (line : pystr) :
  unmarked line = true -> scan_line_value st line = st.
Proof.
  unfold unmarked, scan_line_value, is_option_line. intros H.
  repeat (apply andb_true_iff in H as [H ?]).
  repeat match goal with
         | Hn : negb ?b = true |- _ => apply negb_true_iff in Hn; rewrite Hn
         end.
  reflexivity.
Qed.

Lemma unmarked_lines_skipped (lines : list pystr) (st : scan_state) :
  Forall (fun line => unmarked line = true) lines ->
  fold_left scan_line_value lines st = st.
Proof.
  induction 1 as [|line lines Hline _ IH]; [reflexivity|].
  cbn [fold_left]. now rewrite unmarked_line_skipped.
Qed.

(** X3: lines that begin with none of the markers change nothing, wherever they
    stand: before the text, inside it or after it. *)
Theorem unmarked_lines_are_ignored (a chatter b : pystr) (pts : Z) :
  Forall (fun line => unmarked line = true) (lines_of chatter) ->
  _parse_quiz_response (PyStr (a ++ NEWLINE :: chatter ++ NEWLINE :: b)) pts
  = _parse_quiz_response (PyStr (a ++ NEWLINE :: b)) pts
  /\ _parse_quiz_response (PyStr (chatter ++ NEWLINE :: b)) pts
     = _parse_quiz_response (PyStr b) pts
  /\ _parse_quiz_response (PyStr (a ++ NEWLINE :: chatter)) pts
     = _parse_quiz_response (PyStr a) pts.
Proof.
  intros H. rewrite !parse_str, !lines_of_app, !fold_left_app.
  now rewrite !(unmarked_lines_skipped _ _ H).
Qed.

(** ** Whitespace around the lines *)

Lemma lines_of_leading_space (c : codepoint) (a : pystr) :
  isspace c = true -> c <> NEWLINE -> lines_of (c :: a) = lines_of a.
Proof.
  intros Hc Hnl. unfold lines_of, NEWLINE in *. cbn [split].
  apply N.eqb_neq in Hnl. rewrite Hnl.
  pose proof (split_nonempty a 0x0A%N) as Hne.
  destruct (split a 0x0A%N) as [|piece pieces]; [congruence|].
  unfold nonempty_stripped. cbn [filter].
  rewrite (strip_leading_space c piece Hc).
  destruct (truthy (strip piece)); cbn [map];
    now rewrite ?(strip_leading_space c piece Hc).
Qed.

Lemma split_snoc (a : pystr) (c sep : codepoint) :
  c <> sep ->
  exists init last_piece,
    split a sep = init ++ [last_piece]
    /\ split (a ++ [c]) sep = init ++ [last_piece ++ [c]].
Proof.
  intros Hc. apply N.eqb_neq in Hc.
  induction a as [|x a (init & l & Ha & Hac)].
  - exists [], []. cbn. now rewrite Hc.
  - cbn [app split]. destruct (x =? sep)%N.
    + exists ([] :: init), l. now rewrite Ha, Hac.
    + rewrite Ha, Hac. destruct init as [|p ps].
      * now exists [], (x :: l).
      * now exists ((x :: p) :: ps), l.
Qed.

Lemma lines_of_trailing_space (a : pystr) (c : codepoint) :
  isspace c = true -> c <> NEWLINE -> lines_of (a ++ [c]) = lines_of a.
Proof.
  intros Hc Hnl. unfold lines_of, NEWLINE in *.
  destruct (split_snoc a c 0x0A%N Hnl) as (init & l & -> & ->).
  unfold nonempty_stripped. rewrite !filter_app, !map_app. f_equal.
  cbn [filter]. rewrite (strip_trailing_space l c Hc).
  destruct (truthy (strip l)); cbn [map];
    now rewrite ?(strip_trailing_space l c Hc).
Qed.

(** X5: whitespace at the start or at the end of a line does not matter: a
    whitespace character other than the line break, put right after or
    right before a line break, changes nothing. Text with carriage-return
    line-feed line ends parses as with plain line feeds. *)
Theorem whitespace_around_lines_is_ignored (a b : pystr) (c : codepoint)
        (pts : Z) :
  isspace c = true -> c <> NEWLINE ->
  _parse_quiz_response (PyStr (a ++ c :: NEWLINE :: b)) pts
  = _parse_quiz_response (PyStr (a ++ NEWLINE :: b)) pts
  /\ _parse_quiz_response (PyStr (a ++ NEWLINE :: c :: b)) pts
     = _parse_quiz_response (PyStr (a ++ NEWLINE :: b)) pts
  /\ _parse_quiz_response
       (PyStr (a ++ CARRIAGE_RETURN :: NEWLINE :: b)) pts
     = _parse_quiz_response (PyStr (a ++ NEWLINE :: b)) pts.
Proof.
  intros Hc Hnl.
  assert (Hbefore : forall x, isspace x = true -> x <> NEWLINE ->
            lines_of (a ++ x :: NEWLINE :: b) = lines_of (a ++ NEWLINE :: b)).
  { intros x Hx Hxnl.
    change (a ++ x :: NEWLINE :: b) with (a ++ [x] ++ NEWLINE :: b).
    rewrite app_assoc, !lines_of_app.
    now rewrite (lines_of_trailing_space a x Hx Hxnl). }
  rewrite !parse_str. rewrite (Hbefore c Hc Hnl).
  rewrite (Hbefore CARRIAGE_RETURN eq_refl); [|discriminate].
  rewrite !lines_of_app, (lines_of_leading_space c b Hc Hnl).
  repeat split.
Qed.

(** ** Text in the format the prompt asks for *)

Lemma lines_of_join (lines : list pystr) :
  Forall (fun line => line <> [] /\ single_trimmed_line line) lines ->
  lines_of (join Text.NL lines) = lines.
Proof.
  induction 1 as [|line more (Hne & Hfix & Hnl) Hmore IH]; [reflexivity|].
  destruct more as [|next more].
  - cbn [join]. now apply lines_of_single.
  - change (join Text.NL (line :: next :: more))
      with (line ++ NEWLINE :: join Text.NL (next :: more)).
    rewrite lines_of_app, IH. now rewrite lines_of_single.
Qed.

Lemma marked_line_shape (c : codepoint) (mark s : pystr) :
  isspace c = false -> ~ In NEWLINE (c :: mark) ->
  s <> [] -> single_trimmed_line s ->
  (c :: mark) ++ SPACE :: s <> []
  /\ single_trimmed_line ((c :: mark) ++ SPACE :: s).
Proof.
  intros Hc Hmark Hne (Hfix & Hnl).
  split; [discriminate|]. split.
  - destruct (strip_fixed_ends s Hfix Hne) as (_ & r & c' & Hs & Hc').
    cbn [app]. apply strip_ends with (c' := c') (r' := c :: mark ++ SPACE :: r);
      [assumption..|].
    rewrite Hs. cbn [app]. f_equal.
    change (SPACE :: r ++ [c']) with ((SPACE :: r) ++ [c']).
    now rewrite app_assoc.
  - intros Hin. apply in_app_or in Hin as [Hin|[Hin|Hin]];
      [now apply Hmark|discriminate|now apply Hnl].
Qed.

Lemma after_space (s : pystr) : strip s = s -> strip (SPACE :: s) = s.
Proof.
  intros H. now rewrite (strip_leading_space SPACE s eq_refl).
Qed.

Lemma question_line_step (st : scan_state) (s : pystr) :
  strip s = s -> contains s Text.QUESTION_MARK = false ->
  scan_line_value st (Text.QUESTION_MARK ++ SPACE :: s)
  = mkScan s (st_options st) (st_correct_answer st) (st_explanation st).
Proof.
  intros Hfix Habsent. unfold scan_line_value. rewrite startswith_app.
  rewrite (@replace_leading_only Text.QUESTION_MARK (SPACE :: s));
    [now rewrite after_space|discriminate|].
  cbn [contains]. now rewrite Habsent.
Qed.

Lemma explanation_line_step (st : scan_state) (s : pystr) :
  strip s = s -> contains s Text.EXPLANATION_MARK = false ->
  scan_line_value st (Text.EXPLANATION_MARK ++ SPACE :: s)
  = mkScan (st_question st) (st_options st) (st_correct_answer st) s.
Proof.
  intros Hfix Habsent. unfold scan_line_value.
  destruct (explanation_line_not_earlier
              (Text.EXPLANATION_MARK ++ SPACE :: s)
              (startswith_app _ _)) as (-> & -> & ->).
  rewrite startswith_app.
  rewrite (@replace_leading_only Text.EXPLANATION_MARK (SPACE :: s));
    [now rewrite after_space|discriminate|].
  cbn [contains]. now rewrite Habsent.
Qed.

Lemma option_line_step (st : scan_state) (mark s : pystr) :
  In mark Text.OPTION_MARKS -> strip s = s ->
  scan_line_value st (mark ++ SPACE :: s)
  = mkScan (st_question st) (st_options st ++ [s]) (st_correct_answer st)
           (st_explanation st).
Proof.
  intros Hmark Hfix. unfold scan_line_value.
  assert (Hkind : startswith (mark ++ SPACE :: s) Text.QUESTION_MARK = false
                  /\ is_option_line (mark ++ SPACE :: s) = true
                  /\ slice_from 2 (mark ++ SPACE :: s) = SPACE :: s).
  { destruct Hmark as [<-|[<-|[<-|[<-|[]]]]]; repeat split. }
  destruct Hkind as (-> & -> & ->). now rewrite after_space.
Qed.

Lemma digit_cases (k : N) :
  (k <= 9)%N ->
  (k = 0 \/ k = 1 \/ k = 2 \/ k = 3 \/ k = 4
   \/ k = 5 \/ k = 6 \/ k = 7 \/ k = 8 \/ k = 9)%N.
Proof.
  lia.
Qed.

Lemma answer_line_step (st : scan_state) (k : N) :
  (k <= 9)%N ->
  scan_line_value st (Text.ANSWER_MARK ++ [SPACE; (0x30 + k)%N])
  = mkScan (st_question st) (st_options st) (Z.of_N k - 1) (st_explanation st).
Proof.
  intros Hk. destruct st as [q o a e].
  destruct (digit_cases k Hk) as [->|[->|[->|[->|[->|[->|[->|[->|[->| ->]]]]]]]]];
    vm_compute; reflexivity.
Qed.

Lemma digit_line_shape (k : N) :
  (k <= 9)%N ->
  [(0x30 + k)%N] <> [] /\ single_trimmed_line [(0x30 + k)%N].
Proof.
  intros Hk. split; [discriminate|]. split.
  - destruct (digit_cases k Hk) as [->|[->|[->|[->|[->|[->|[->|[->|[->| ->]]]]]]]]];
      reflexivity.
  - intros [H|[]]. unfold NEWLINE in H. lia.
Qed.

Ltac use_trimmed :=
  match goal with
  | H : single_trimmed_line ?s |- strip ?s = ?s => exact (proj1 H)
  end.

(** X1: a text in the format the prompt asks for is read back exactly: the
    question, the four options in the order they stand (whichever of the
    markers "1." to "4." each one bears), the explanation, and the answer
    digit less one, clamped to 3. The texts must be non-empty single lines
    without whitespace at either end; the question must not hold the
    question marker, nor the explanation the explanation marker. *)
Theorem formatted_quiz_is_read_back
        (q o1 o2 o3 o4 e m1 m2 m3 m4 : pystr) (k : N) (pts : Z) :
  Forall (fun s => s <> [] /\ single_trimmed_line s) [q; o1; o2; o3; o4; e] ->
  Forall (fun m => In m Text.OPTION_MARKS) [m1; m2; m3; m4] ->
  contains q Text.QUESTION_MARK = false ->
  contains e Text.EXPLANATION_MARK = false ->
  (k <= 9)%N ->
  _parse_quiz_response
    (PyStr (join Text.NL
              [ Text.QUESTION_MARK ++ SPACE :: q;
                m1 ++ SPACE :: o1;
                m2 ++ SPACE :: o2;
                m3 ++ SPACE :: o3;
                m4 ++ SPACE :: o4;
                Text.ANSWER_MARK ++ [SPACE; (0x30 + k)%N];
                Text.EXPLANATION_MARK ++ SPACE :: e ]))
    pts
  = {| question := q;
       options := [o1; o2; o3; o4];
       correct_answer := Z.max 0 (Z.min 3 (Z.of_N k - 1));
       explanation := e;
       points := pts |}.
Proof.
  intros Htexts Hmarks Hq He Hk.
  repeat match goal with
         | H : Forall _ (_ :: _) |- _ => inversion H; clear H; subst
         | H : _ /\ _ |- _ => destruct H
         end.
  assert (Hoption : forall m s,
             In m Text.OPTION_MARKS -> s <> [] -> single_trimmed_line s ->
             m ++ SPACE :: s <> [] /\ single_trimmed_line (m ++ SPACE :: s)).
  { intros m s Hm Hs Hts.
    destruct Hm as [<-|[<-|[<-|[<-|[]]]]];
      (apply marked_line_shape;
       [reflexivity|apply not_in_by_eqb; reflexivity|assumption..]). }
  rewrite parse_str, lines_of_join.
  - cbn [fold_left].
    rewrite question_line_step by (assumption || use_trimmed).
    rewrite (option_line_step _ m1 o1) by (assumption || use_trimmed).
    rewrite (option_line_step _ m2 o2) by (assumption || use_trimmed).
    rewrite (option_line_step _ m3 o3) by (assumption || use_trimmed).
    rewrite (option_line_step _ m4 o4) by (assumption || use_trimmed).
    rewrite answer_line_step by assumption.
    rewrite explanation_line_step by (assumption || use_trimmed).
    cbn [finish scan_init st_question st_options st_correct_answer
         st_explanation app length Nat.eqb].
    unfold str_or. destruct q; [congruence|]. destruct e; [congruence|].
    reflexivity.
  - destruct (digit_line_shape k Hk) as [Hd1 Hd2].
    repeat apply Forall_cons; try apply Forall_nil;
      try (now apply Hoption).
    + apply (marked_line_shape 0x554F%N [0x984C; 0x3A]%N q);
        [reflexivity|apply not_in_by_eqb; reflexivity|assumption..].
    + apply (marked_line_shape 0x6B63%N [0x89E3; 0x3A]%N [(0x30 + k)%N]);
        [reflexivity|apply not_in_by_eqb; reflexivity|assumption..].
    + apply (marked_line_shape 0x89E3%N [0x8AAC; 0x3A]%N e);
        [reflexivity|apply not_in_by_eqb; reflexivity|assumption..].
Qed.

(** ** Content that is no text *)

(** X8: when the provider's content is no string the parser answers with the
    generic catalog quiz for an empty spot name: its question starts right
    at "について", and it is worth 15 points whatever [points] was. *)
Theorem non_text_content_gets_generic_quiz (content : pyval) (pts : Z) :
  (forall s, content <> PyStr s) ->
  _parse_quiz_response content pts
  = {| question := Text.WHICH_IS_CORRECT;
       options := Text.GENERIC_OPTIONS;
       correct_answer := 0;
       explanation := Text.GENERIC_EXPLANATION;
       points := 15 |}.
Proof.
  intros Hnot. destruct content as [| n | s]; [reflexivity..|].
  now destruct (Hnot s).
Qed.

(** ** Every answer of the endpoint *)

Lemma fallback_well_formed (spot : pystr) (d : pyval) :
  well_formed (_get_fallback_quiz spot d).
Proof.
  unfold well_formed, _get_fallback_quiz.
  destruct (contains spot Text.DAIBUTSU);
    [|destruct (contains spot Text.HACHIMANGU)];
    cbn [question options correct_answer explanation];
    (split; [reflexivity|]); (split; [lia|]);
    split; intros H; apply app_eq_nil in H as [_ H]; discriminate.
Qed.

Lemma parse_well_formed (content : pyval) (pts : Z) :
  well_formed (_parse_quiz_response content pts).
Proof.
  destruct content as [| n | s]; try apply fallback_well_formed.
  rewrite parse_str. destruct default_texts_nonempty as [Hq He].
  split; [apply finish_options_length|].
  split; [apply finish_answer_clamped|].
  split; apply truthy_nonempty; cbn [finish question explanation];
    now apply str_or_truthy.
Qed.


Lemma parse_points (content : pyval) (pts : Z) :
  points (_parse_quiz_response content pts) = pts
  \/ points (_parse_quiz_response content pts) = 15%Z.
Proof.
  destruct content as [| n | s]; [right; reflexivity..|].
  left. now rewrite parse_str.
Qed.

(** The endpoint has four ways to end: without a client; with the
    provider's answer parsed; with the provider's call raising; with an
    answer that has no choice or no usage. *)
Lemma endpoint_cases (request : QuizRequest) (w : World) :
  let prompt := build_prompt (spot_name request) (spot_description request)
                             (difficulty request) in
  let after := {| openai_client := openai_client w;
                  sent := sent w ++ [prompt] |} in
  (openai_client w = None
   /\ generate_ai_quiz request w = (ok (fallback_response request), w))
  \/ (exists ask content more tokens,
         openai_client w = Some ask
         /\ ask (length (sent w)) prompt
            = ok {| choices := content :: more;
                    usage_total_tokens := Some tokens |}
         /\ generate_ai_quiz request w
            = (ok {| success := true;
                     quiz := Some (_parse_quiz_response content
                                     (points_for (PyStr (difficulty request))));
                     generated_by := Text.OPENAI |}, after))
  \/ (exists ask,
         openai_client w = Some ask
         /\ (forall content more tokens,
                ask (length (sent w)) prompt
                <> ok {| choices := content :: more;
                         usage_total_tokens := Some tokens |})
         /\ generate_ai_quiz request w
            = (ok (fallback_response request), after)).
Proof.
  cbv zeta. destruct (openai_client w) as [ask|] eqn:Hclient.
  - right.
    unfold generate_ai_quiz, try_except, _generate_quiz_with_openai, mbind,
      chat_completions_create, lift, mret.
    rewrite Hclient.
    destruct (ask (length (sent w)) _) as [e|[choices usage]] eqn:Hask.
    { right. exists ask. split; [reflexivity|].
      split; [intros c m t H; rewrite Hask in H; unfold ok in H; congruence
             |reflexivity]. }
    destruct choices as [|content more].
    { right. exists ask. split; [reflexivity|].
      split; [intros c m t H; rewrite Hask in H; unfold ok in H; congruence
             |reflexivity]. }
    destruct usage as [tokens|].
    + left. exists ask, content, more, tokens.
      split; [reflexivity|split; [exact Hask|reflexivity]].
    + right. exists ask. split; [reflexivity|].
      split; [intros c m t H; rewrite Hask in H; unfold ok in H; congruence
             |reflexivity].
  - left. split; [reflexivity|]. unfold generate_ai_quiz. now rewrite Hclient.
Qed.

(** X9: every answer of the endpoint carries a quiz, and that quiz has 4
    options, an answer index in [0,3] and a non-empty question and
    explanation: whatever the request, the client and what the provider
    returns or raises. *)
Theorem every_answer_carries_a_well_formed_quiz (request : QuizRequest)
        (w : World) :
  exists response w' q,
    generate_ai_quiz request w = (ok response, w')
    /\ success response = true
    /\ quiz response = Some q
    /\ well_formed q.
Proof.
  destruct (endpoint_cases request w)
    as [(_ & ->)|[(ask & content & more & tokens & _ & _ & ->)
                 |(ask & _ & _ & ->)]];
    do 3 eexists; repeat split;
    try apply fallback_well_formed; apply parse_well_formed.
Qed.


(** X11: the answer is tagged "openai" exactly when a client is configured and
    the provider returned an answer with at least one choice and with usage
    figures; the quiz is then what the parser makes of the first choice's
    content. In every other case the answer is the fallback answer. With a
    client the provider receives exactly one request, the prompt built from
    the request; without one it receives none. *)
Theorem openai_tag_means_provider_answered (request : QuizRequest) (w : World) :
  let prompt := build_prompt (spot_name request) (spot_description request)
                             (difficulty request) in
  exists response w',
    generate_ai_quiz request w = (ok response, w')
    /\ (generated_by response = Text.OPENAI
        <-> exists ask content more tokens,
              openai_client w = Some ask
              /\ ask (length (sent w)) prompt
                 = ok {| choices := content :: more;
                         usage_total_tokens := Some tokens |})
    /\ (forall ask content more tokens,
           openai_client w = Some ask ->
           ask (length (sent w)) prompt
           = ok {| choices := content :: more;
                   usage_total_tokens := Some tokens |} ->
           quiz response
           = Some (_parse_quiz_response content
                     (points_for (PyStr (difficulty request)))))
    /\ (generated_by response <> Text.OPENAI ->
        response = fallback_response request)
    /\ openai_client w' = openai_client w
    /\ sent w' = match openai_client w with
                 | Some _ => sent w ++ [prompt]
                 | None => sent w
                 end.
Proof.
  cbv zeta.
  destruct (endpoint_cases request w)
    as [(Hnone & ->)|[(ask & content & more & tokens & Hsome & Hask & ->)
                     |(ask & Hsome & Hnever & ->)]];
    do 2 eexists; (split; [reflexivity|]).
  - rewrite Hnone.
    split; [split; [discriminate|intros (a & _ & _ & _ & H & _); discriminate]|].
    split; [intros a c m t H; discriminate|].
    split; [reflexivity|]. split; reflexivity.
  - rewrite Hsome.
    split; [split; [intros _; now exists ask, content, more, tokens
                   |reflexivity]|].
    split.
    { intros ask' c m t Hask' Hc.
      assert (ask' = ask) as -> by congruence.
      rewrite Hask in Hc. unfold ok in Hc. now inversion Hc. }
    split; [intros H; now destruct H|]. split; reflexivity.
  - rewrite Hsome.
    split.
    { split; [discriminate|].
      intros (ask' & c & m & t & Hask' & Hc).
      assert (ask' = ask) as -> by congruence.
      now destruct (Hnever c m t). }
    split.
    { intros ask' c m t Hask' Hc.
      assert (ask' = ask) as -> by congruence.
      now destruct (Hnever c m t). }
    split; [reflexivity|]. split; reflexivity.
Qed.

(** ** The prompt *)

Lemma rstrip_keeps (s t : pystr) (c : codepoint) :
  isspace c = false -> rstrip (s ++ t ++ [c]) = s ++ t ++ [c].
Proof.
  intros Hc. rewrite app_assoc. now apply rstrip_snoc_nonspace.
Qed.

(** X12: stripping the prompt removes the line break at either end and the
    whitespace that opens the spot name, and nothing else: the difficulty,
    the description and the format lines reach the provider as they are,
    and the prompt ends with the explanation line of the format. *)
Theorem prompt_loses_only_leading_whitespace (spot desc d : pystr) :
  build_prompt spot desc d
  = lstrip spot ++ Text.PROMPT_ABOUT ++ d ++ Text.PROMPT_LEVEL ++ Text.NL
    ++ Text.NL
    ++ Text.PROMPT_SPOT_INFO ++ desc ++ Text.NL
    ++ Text.NL
    ++ join Text.NL Text.PROMPT_FORMAT.
Proof.
  unfold build_prompt, strip.
  set (format_start := removelast (join Text.NL Text.PROMPT_FORMAT)).
  assert (Hlines : flat_map (fun line => line ++ Text.NL) Text.PROMPT_FORMAT
                   = (format_start ++ [0x5D%N]) ++ [NEWLINE])
    by (vm_compute; reflexivity).
  assert (Hjoin : join Text.NL Text.PROMPT_FORMAT = format_start ++ [0x5D%N])
    by (vm_compute; reflexivity).
  rewrite Hlines, Hjoin. clearbody format_start.
  assert (Hleft :
    lstrip (Text.NL ++ spot ++ Text.PROMPT_ABOUT ++ d ++ Text.PROMPT_LEVEL
            ++ Text.NL ++ Text.NL ++ Text.PROMPT_SPOT_INFO ++ desc ++ Text.NL
            ++ Text.NL ++ (format_start ++ [0x5D%N]) ++ [NEWLINE])
    = lstrip spot ++ Text.PROMPT_ABOUT ++ d ++ Text.PROMPT_LEVEL
      ++ Text.NL ++ Text.NL ++ Text.PROMPT_SPOT_INFO ++ desc ++ Text.NL
      ++ Text.NL ++ (format_start ++ [0x5D%N]) ++ [NEWLINE]).
  { unfold lstrip. cbn [Text.NL app dropwhile]. cbn [isspace].
    change (isspace 10%N) with true. cbv iota.
    apply (dropwhile_app_stop isspace spot 0x306B%N). reflexivity. }
  rewrite Hleft.
  rewrite !app_assoc. rewrite rstrip_snoc_space by reflexivity.
  now rewrite rstrip_snoc_nonspace by reflexivity.
Qed.

(** ** Substrings *)

Lemma startswith_iff (s prefix : pystr) :
  startswith s prefix = true <-> exists rest, s = prefix ++ rest.
Proof.
  revert s. induction prefix as [|p prefix IH]; intros s; cbn [startswith].
  - split; [intros _; now exists s|reflexivity].
  - destruct s as [|c s].
    + split; [discriminate|intros [rest H]; discriminate].
    + rewrite andb_true_iff, N.eqb_eq, IH. split.
      * intros [-> [rest ->]]. now exists rest.
      * intros [rest H]. inversion H; subst. split; [reflexivity|now exists rest].
Qed.

(** [sub in s] holds exactly when [s] is some text, then [sub], then some
    text. *)
Lemma contains_iff (s sub : pystr) :
  contains s sub = true <-> exists before after, s = before ++ sub ++ after.
Proof.
  induction s as [|c s IH]; cbn [contains]; rewrite orb_true_iff.
  - split.
    + intros [H|H]; [|discriminate].
      apply startswith_iff in H as [rest H]. now exists [], rest.
    + intros (before & after & H). left. apply startswith_iff.
      destruct before; [now exists after|discriminate].
  - rewrite IH, startswith_iff. split.
    + intros [[rest H]|(before & after & H)].
      * now exists [], rest.
      * exists (c :: before), after. now rewrite H.
    + intros (before & after & H). destruct before as [|b before].
      * left. now exists after.
      * right. inversion H; subst. now exists before, after.
Qed.

(** X13: which catalog quiz is returned, in terms of the spot name: the
    Great-Buddha quiz exactly when the name holds 大仏 somewhere; the shrine
    quiz exactly when it holds 八幡宮 but not 大仏; the generic quiz exactly
    when it holds neither. *)
Theorem fallback_rule_by_substring (spot : pystr) (d : pyval) :
  let holds sub := exists before after, spot = before ++ sub ++ after in
  (options (_get_fallback_quiz spot d) = Text.DAIBUTSU_OPTIONS
   <-> holds Text.DAIBUTSU)
  /\ (options (_get_fallback_quiz spot d) = Text.HACHIMANGU_OPTIONS
      <-> holds Text.HACHIMANGU /\ ~ holds Text.DAIBUTSU)
  /\ (options (_get_fallback_quiz spot d) = Text.GENERIC_OPTIONS
      <-> ~ holds Text.HACHIMANGU /\ ~ holds Text.DAIBUTSU).
Proof.
  cbv zeta. rewrite <- !contains_iff. unfold _get_fallback_quiz.
  destruct (contains spot Text.DAIBUTSU);
    [|destruct (contains spot Text.HACHIMANGU)]; cbn [options];
    repeat split; try discriminate; try reflexivity; try tauto;
    try (intros [? ?]; congruence); intros ?; congruence.
Qed.

(** ** Start-up *)

(** X14: a client exists after start-up exactly when the key is set, begins with
    "sk-" and the constructor returned; the client is then the one the
    constructor built. *)
Theorem client_needs_an_sk_key (OPENAI_API_KEY : option pystr)
        (AsyncOpenAI : pystr -> result provider) (client : provider) :
  init_client OPENAI_API_KEY AsyncOpenAI = Some client
  <-> exists rest,
        OPENAI_API_KEY = Some (Config.SK ++ rest)
        /\ AsyncOpenAI (Config.SK ++ rest) = ok client.
Proof.
  unfold init_client. split.
  - destruct OPENAI_API_KEY as [key|]; [|discriminate].
    destruct (truthy key); [|discriminate]. cbn [andb].
    destruct (startswith key Config.SK) eqn:Hsk; [|discriminate].
    apply startswith_iff in Hsk as [rest ->].
    destruct (AsyncOpenAI _) as [e|c] eqn:Hc; [discriminate|].
    intros H. inversion H; subst. now exists rest.
  - intros (rest & -> & Hc). rewrite startswith_app, Hc. reflexivity.
Qed.

(** X15: a key that is set but does not begin with "sk-" makes the usage
    statistics report [api_configured] while the health check reports the
    provider unavailable, and every request is then answered with the
    fallback quiz, nothing being sent. *)
Theorem key_of_wrong_format_means_fallback (key : pystr)
        (AsyncOpenAI : pystr -> result provider) (request : QuizRequest) :
  key <> [] -> startswith key Config.SK = false ->
  let w := loaded (Some key) AsyncOpenAI in
  api_configured (Some key) = true
  /\ openai_available (health_check w) = false
  /\ generate_ai_quiz request w = (ok (fallback_response request), w).
Proof.
  intros Hne Hsk. cbv zeta.
  assert (Hclient : init_client (Some key) AsyncOpenAI = None).
  { unfold init_client. rewrite Hsk. now rewrite andb_false_r. }
  split; [now apply truthy_nonempty|].
  unfold health_check, loaded, generate_ai_quiz. cbn [openai_client].
  rewrite Hclient. split; reflexivity.
Qed.

(** ** Allowed origins *)

Lemma split_length (s : pystr) (sep : codepoint) :
  length (split s sep) = S (count_occ N.eq_dec s sep).
Proof.
  induction s as [|c s IH]; [reflexivity|].
  cbn [split count_occ]. pose proof (split_nonempty s sep) as Hne.
  destruct (N.eqb_spec c sep) as [->|Hc].
  - destruct (N.eq_dec sep sep); [|congruence]. cbn [length]. now rewrite IH.
  - destruct (N.eq_dec c sep); [congruence|].
    destruct (split s sep); [congruence|]. exact IH.
Qed.

(** X16: the allowed origins are the pieces of the configured text between its
    commas, kept as they are: joined by commas they give the text back, so
    nothing is trimmed or dropped; none holds a comma; there is one more of
    them than there are commas, so at least one, and 6 by default. *)
Theorem allowed_origins_are_the_comma_pieces (env : option pystr) :
  join [Config.COMMA] (ALLOWED_ORIGINS env) = getenv env Config.DEFAULT_ORIGINS
  /\ Forall (fun origin => ~ In Config.COMMA origin) (ALLOWED_ORIGINS env)
  /\ length (ALLOWED_ORIGINS env)
     = S (count_occ N.eq_dec (getenv env Config.DEFAULT_ORIGINS) Config.COMMA)
  /\ length (ALLOWED_ORIGINS None) = 6.
Proof.
  unfold ALLOWED_ORIGINS. split; [apply join_split|].
  split; [apply Forall_forall; intros origin;
          apply split_pieces_without_sep|].
  split; [apply split_length|reflexivity].
Qed.

(** ** Answers of any length *)

Lemma ascii_digit_range (c : codepoint) :
  is_ascii_digit c = true -> (0x30 <= c <= 0x39)%N.
Proof.
  unfold is_ascii_digit. rewrite andb_true_iff, !N.leb_le. tauto.
Qed.

Lemma scan_all_digits (digits : pystr) :
  Forall (fun c => is_ascii_digit c = true) digits ->
  forall prev value count,
    (prev =? UNDERSCORE)%N = false ->
    scan_digits prev value count digits
    = Some (fold_left (fun v c => (10 * v + Z.of_N (c - 0x30))%Z) digits value,
            count + length digits, []).
Proof.
  induction 1 as [|c digits Hc _ IH]; intros prev value count Hprev.
  - cbn. now rewrite Hprev, Nat.add_0_r.
  - cbn [scan_digits fold_left length]. rewrite Hc.
    rewrite IH; [now rewrite Nat.add_succ_r|].
    apply ascii_digit_range in Hc. apply N.eqb_neq. unfold UNDERSCORE. lia.
Qed.

Lemma to_ascii_of_digits (digits : pystr) :
  Forall (fun c => is_ascii_digit c = true) digits ->
  to_ascii_decimal digits = digits.
Proof.
  induction 1 as [|c digits Hc _ IH]; [reflexivity|].
  cbn [to_ascii_decimal]. apply ascii_digit_range in Hc.
  assert ((c <? 127)%N = true) as -> by (apply N.ltb_lt; lia).
  now rewrite IH.
Qed.

(** [int] on a run of ASCII digits: its value, unless the run is longer
    than the interpreter's limit. *)
Lemma int_of_digits (digits : pystr) :
  digits <> [] ->
  Forall (fun c => is_ascii_digit c = true) digits ->
  int digits = if over_digit_limit (length digits) then raise ValueError
               else ok (decimal_value digits).
Proof.
  intros Hne Hall. unfold int. rewrite (to_ascii_of_digits _ Hall).
  destruct digits as [|c digits]; [congruence|].
  pose proof (Forall_inv Hall) as Hc. apply ascii_digit_range in Hc.
  assert (Hspace : ascii_isspace c = false).
  { unfold ascii_isspace. apply orb_false_iff. split.
    - apply andb_false_iff. right. apply N.leb_gt. lia.
    - apply N.eqb_neq. lia. }
  cbn [dropwhile]. rewrite Hspace.
  assert ((c =? PLUS)%N = false) as -> by (apply N.eqb_neq; unfold PLUS; lia).
  assert ((c =? MINUS)%N = false) as -> by (apply N.eqb_neq; unfold MINUS; lia).
  cbn [startswith].
  assert ((c =? UNDERSCORE)%N = false) as ->
    by (apply N.eqb_neq; unfold UNDERSCORE; lia).
  cbn [andb]. rewrite (scan_all_digits _ Hall 0%N 0%Z 0 eq_refl).
  cbn [Nat.add]. destruct (over_digit_limit (length (c :: digits)));
    [reflexivity|].
  cbn [length Nat.eqb dropwhile truthy]. unfold decimal_value.
  now rewrite Z.mul_1_l.
Qed.

Lemma contains_needs_first (s sub : pystr) (c : codepoint) :
  contains s (c :: sub) = true -> In c s.
Proof.
  induction s as [|a s IH]; cbn [contains startswith]; [discriminate|].
  rewrite orb_true_iff, andb_true_iff, N.eqb_eq.
  intros [[-> _]|H]; [now left|right; now apply IH].
Qed.

Lemma digits_shape (digits : pystr) :
  digits <> [] ->
  Forall (fun c => is_ascii_digit c = true) digits ->
  single_trimmed_line digits /\ contains digits Text.ANSWER_MARK = false.
Proof.
  intros Hne Hall.
  assert (Hnot : forall c, In c digits -> (0x30 <= c <= 0x39)%N).
  { intros c Hin. apply ascii_digit_range.
    now apply (proj1 (Forall_forall _ _) Hall). }
  assert (Hnospace : forall c, In c digits -> isspace c = false).
  { intros c Hin. apply Hnot in Hin. unfold isspace.
    repeat (apply orb_false_iff; split);
      try (apply andb_false_iff; (left; apply N.leb_gt; lia)
                                 || (right; apply N.leb_gt; lia));
      apply N.eqb_neq; lia. }
  repeat split.
  - destruct digits as [|c r]; [congruence|].
    destruct (exists_last Hne) as (r' & c' & Heq).
    apply strip_ends with (c' := c') (r' := r'); [| |exact Heq].
    + apply Hnospace. now left.
    + apply Hnospace. rewrite Heq. apply in_or_app. right. now left.
  - intros Hin. apply Hnot in Hin. unfold NEWLINE in Hin. lia.
  - destruct (contains digits Text.ANSWER_MARK) eqn:Hc; [|reflexivity].
    apply contains_needs_first in Hc. apply Hnot in Hc. lia.
Qed.

(** X7: an answer line with a run of ASCII digits of any length: the answer is
    the number less one, clamped into [0,3], so every number from 4 up gives
    3; but a run longer than the interpreter's limit on [int] is no number
    for [int], and the answer is 0. *)
Theorem numeral_answer_is_clamped_or_over_limit (digits : pystr) (pts : Z) :
  digits <> [] ->
  Forall (fun c => is_ascii_digit c = true) digits ->
  correct_answer
    (_parse_quiz_response (PyStr (Text.ANSWER_MARK ++ SPACE :: digits)) pts)
  = if over_digit_limit (length digits) then 0%Z
    else Z.max 0 (Z.min 3 (decimal_value digits - 1)).
Proof.
  intros Hne Hall.
  destruct (digits_shape digits Hne Hall) as (Htidy & Habsent).
  destruct (marked_line_shape 0x6B63%N [0x89E3; 0x3A]%N digits)
    as (Hline & Hfix & Hnl);
    [reflexivity|apply not_in_by_eqb; reflexivity|assumption..|].
  rewrite parse_str, lines_of_single by assumption.
  cbn [fold_left finish correct_answer]. unfold scan_line_value.
  destruct (answer_line_not_earlier
              (Text.ANSWER_MARK ++ SPACE :: digits) (startswith_app _ _))
    as (-> & ->).
  rewrite startswith_app. cbn [st_correct_answer]. unfold answer_of.
  rewrite (@replace_leading_only Text.ANSWER_MARK (SPACE :: digits));
    [|discriminate|cbn [contains]; now rewrite Habsent].
  rewrite (after_space digits (proj1 Htidy)), (int_of_digits digits Hne Hall).
  destruct (over_digit_limit (length digits)); reflexivity.
Qed.

(** ** Missing fields *)

(** X6: a field the text has no line for gets its default: the generic question
    without a question line, answer 0 without an answer line, the generic
    explanation without an explanation line, and the generic options when
    there is no option line at all. *)
Theorem missing_fields_get_defaults (raw_text : pystr) (pts : Z) :
  let none_with marked :=
    forallb (fun line => negb (marked line)) (lines_of raw_text) = true in
  (none_with (fun line => startswith line Text.QUESTION_MARK) ->
   question (_parse_quiz_response (PyStr raw_text) pts)
   = Text.DEFAULT_QUESTION)
  /\ (none_with (fun line => startswith line Text.ANSWER_MARK) ->
      correct_answer (_parse_quiz_response (PyStr raw_text) pts) = 0%Z)
  /\ (none_with (fun line => startswith line Text.EXPLANATION_MARK) ->
      explanation (_parse_quiz_response (PyStr raw_text) pts)
      = Text.DEFAULT_EXPLANATION)
  /\ (none_with is_option_line ->
      options (_parse_quiz_response (PyStr raw_text) pts)
      = Text.DEFAULT_OPTIONS).
Proof.
  cbv zeta. rewrite parse_str.
  split; [|split; [|split]]; intros Hnone.
  - cbn [finish question].
    erewrite (@unmarked_lines_keep _ st_question
                (fun l => startswith l Text.QUESTION_MARK));
      [reflexivity| |exact Hnone].
    intros st line H. unfold scan_line_value. rewrite H.
    repeat match goal with
           | |- context [if ?b then _ else _] => destruct b
           end; reflexivity.
  - cbn [finish correct_answer].
    erewrite (@unmarked_lines_keep _ st_correct_answer
                (fun l => startswith l Text.ANSWER_MARK));
      [reflexivity| |exact Hnone].
    intros st line H. unfold scan_line_value. rewrite H.
    repeat match goal with
           | |- context [if ?b then _ else _] => destruct b
           end; reflexivity.
  - cbn [finish explanation].
    erewrite (@unmarked_lines_keep _ st_explanation
                (fun l => startswith l Text.EXPLANATION_MARK));
      [reflexivity| |exact Hnone].
    intros st line H. unfold scan_line_value. rewrite H.
    repeat match goal with
           | |- context [if ?b then _ else _] => destruct b
           end; reflexivity.
  - cbn [finish options]. rewrite options_accumulate.
    assert (Hempty : filter is_option_line (lines_of raw_text) = []).
    { clear - Hnone. induction (lines_of raw_text) as [|line lines IH];
        [reflexivity|].
      cbn [forallb] in Hnone. apply andb_true_iff in Hnone as [Hline Hrest].
      apply negb_true_iff in Hline. cbn [filter]. rewrite Hline.
      now apply IH. }
    now rewrite Hempty.
Qed.

End Interpreter.

(** * Two runs of the endpoint *)

(** C8: the fallback quiz is a function of the spot name and the difficulty
    alone. Two calls of the endpoint with the same request and no client
    configured return the same answer, which is that fallback quiz: whatever
    the interpreter settings and whatever was sent to the provider before,
    and also when the second call runs in the state the first one left. *)
Theorem C8_fallback_deterministic
        (dec1 dec2 : codepoint -> option N) (lim1 lim2 : nat)
        (request : QuizRequest) (w1 w2 : World) :
  openai_client w1 = None ->
  openai_client w2 = None ->
  fst (generate_ai_quiz dec1 lim1 request w1)
  = fst (generate_ai_quiz dec2 lim2 request w2)
  /\ fst (generate_ai_quiz dec1 lim1 request
                           (snd (generate_ai_quiz dec1 lim1 request w1)))
     = fst (generate_ai_quiz dec1 lim1 request w1)
  /\ fst (generate_ai_quiz dec1 lim1 request w1)
     = ok {| success := true;
             quiz := Some (_get_fallback_quiz (spot_name request)
                                              (PyStr (difficulty request)));
             generated_by := Text.FALLBACK |}
  /\ (forall spot spot' d d',
         spot = spot' -> d = d' ->
         _get_fallback_quiz spot d = _get_fallback_quiz spot' d').
Proof.
  intros H1 H2.
  assert (Hrun : forall dec lim w,
             openai_client w = None ->
             generate_ai_quiz dec lim request w
             = (ok (fallback_response request), w)).
  { intros dec lim w H. unfold generate_ai_quiz. now rewrite H. }
  rewrite (Hrun dec1 lim1 w1 H1), (Hrun dec2 lim2 w2 H2). cbn [fst snd].
  rewrite (Hrun dec1 lim1 w1 H1). cbn [fst].
  repeat split. intros spot spot' d d' -> ->. reflexivity.
Qed.

Lemma C8_fallback_deterministic_witness :
  fst (generate_ai_quiz fullwidth_decimal 4300
         (sample_request Sample.KAMAKURA_DAIBUTSU Text.MIDDLE)
         (no_requests None))
  = fst (generate_ai_quiz (fun _ => None) 0
           (sample_request Sample.KAMAKURA_DAIBUTSU Text.MIDDLE)
           {| openai_client := None; sent := [Sample.DESCRIPTION] |}).
Proof.
  exact (proj1 (@C8_fallback_deterministic
                  fullwidth_decimal (fun _ => None) 4300 0
                  (sample_request Sample.KAMAKURA_DAIBUTSU Text.MIDDLE)
                  (no_requests None)
                  {| openai_client := None; sent := [Sample.DESCRIPTION] |}
                  eq_refl eq_refl)).
Defined.

(** * Concrete inputs *)

(** Four option lines with the same text, and four bare option markers: the
    parser returns them as they are, so its options can repeat and can be
    empty. *)
Lemma C2_counterexample :
  (forall dec lim pts,
      options (_parse_quiz_response dec lim
                 (PyStr Sample.SAME_OPTION_FOUR_TIMES) pts)
      = [Sample.A; Sample.A; Sample.A; Sample.A])
  /\ ~ NoDup [Sample.A; Sample.A; Sample.A; Sample.A]
  /\ (forall dec lim pts,
         options (_parse_quiz_response dec lim
                    (PyStr Sample.BARE_OPTION_MARKS) pts)
         = [[]; []; []; []])
  /\ ~ Forall (fun o : pystr => o <> []) [[]; []; []; []].
Proof.
  split; [intros dec lim pts; rewrite parse_str; vm_compute; reflexivity|].
  split.
  { intros H. inversion H as [|x l Hnotin _]; subst. apply Hnotin. now left. }
  split; [intros dec lim pts; rewrite parse_str; vm_compute; reflexivity|].
  intros H. inversion H as [|x l Hx _]; subst. now apply Hx.
Qed.

(** The line "正解:正解:3" begins with the answer marker and what follows
    the marker, "正解:3", is no integer; yet the answer is 2, not 0, since
    the second marker is removed too and "3" is what [int] reads. *)
Lemma C6_counterexample :
  startswith Sample.ANSWER_MARK_TWICE Text.ANSWER_MARK = true
  /\ (forall dec lim,
         int dec lim
             (strip (slice_from (length Text.ANSWER_MARK)
                                Sample.ANSWER_MARK_TWICE))
         = raise ValueError)
  /\ (forall dec lim pts,
         correct_answer (_parse_quiz_response dec lim
                           (PyStr Sample.ANSWER_MARK_TWICE) pts)
         = 2%Z).
Proof.
  split; [reflexivity|].
  split.
  - intros dec lim. apply int_rejects_colon. vm_compute. tauto.
  - intros dec lim pts. rewrite parse_str. vm_compute. reflexivity.
Qed.

Lemma C6_answer_line_witness :
  scan_line fullwidth_decimal 4300 scan_init Sample.ANSWER_NINE
  = ok {| st_question := []; st_options := []; st_correct_answer := 8;
          st_explanation := [] |}.
Proof.
  rewrite (proj1 (C6_answer_line fullwidth_decimal 4300)
                 scan_init Sample.ANSWER_NINE eq_refl).
  vm_compute. reflexivity.
Defined.

Lemma C10_last_marker_wins_witness :
  question (_parse_quiz_response fullwidth_decimal 4300
              (PyStr Sample.EVERY_FIELD_TWICE) 15) = Sample.B
  /\ correct_answer (_parse_quiz_response fullwidth_decimal 4300
                       (PyStr Sample.EVERY_FIELD_TWICE) 15) = 1%Z
  /\ explanation (_parse_quiz_response fullwidth_decimal 4300
                    (PyStr Sample.EVERY_FIELD_TWICE) 15) = Sample.E.
Proof.
  destruct (C10_last_marker_wins fullwidth_decimal 4300
              Sample.EVERY_FIELD_TWICE)
    as (st & _ & Hparse & Hquestion & Hanswer & Hexplanation & _).
  rewrite Hparse. cbn [finish question correct_answer explanation].
  pose (lines := lines_of Sample.EVERY_FIELD_TWICE).
  rewrite (Hquestion (firstn 4 lines) (nth 4 lines []) (skipn 5 lines)
                     eq_refl eq_refl eq_refl).
  rewrite (Hanswer (firstn 5 lines) (nth 5 lines []) (skipn 6 lines)
                   eq_refl eq_refl eq_refl).
  rewrite (Hexplanation (firstn 6 lines) (nth 6 lines []) (skipn 7 lines)
                        eq_refl eq_refl eq_refl).
  vm_compute. repeat split.
Defined.

Lemma C5_fallback_selection_witness :
  contains Sample.HACHIMANGU_AND_DAIBUTSU Text.HACHIMANGU = true
  /\ options (_get_fallback_quiz Sample.HACHIMANGU_AND_DAIBUTSU
                                 (PyStr Text.HIGH))
     = Text.DAIBUTSU_OPTIONS
  /\ hd_error (options (_get_fallback_quiz Sample.TSURUGAOKA_HACHIMANGU
                                           (PyStr Text.MIDDLE)))
     = Some Text.YORITOMO
  /\ question (_get_fallback_quiz Sample.ENOSHIMA PyNone)
     = Sample.ENOSHIMA ++ Text.WHICH_IS_CORRECT.
Proof.
  split; [reflexivity|].
  rewrite (proj1 (C5_fallback_selection Sample.HACHIMANGU_AND_DAIBUTSU
                                        (PyStr Text.HIGH)) eq_refl).
  rewrite (proj1 (proj2 (C5_fallback_selection Sample.TSURUGAOKA_HACHIMANGU
                                               (PyStr Text.MIDDLE)))
                 eq_refl eq_refl).
  rewrite (proj1 (proj2 (proj2 (C5_fallback_selection Sample.ENOSHIMA PyNone)))
                 eq_refl eq_refl).
  repeat split.
Defined.

Lemma C4_points_lookup_witness :
  exists w',
    _generate_quiz_with_openai fullwidth_decimal 4300
      Sample.ENOSHIMA Sample.DESCRIPTION Text.ELEMENTARY
      (no_requests (Some well_behaved))
    = (ok (_parse_quiz_response fullwidth_decimal 4300
             (PyStr Sample.WELL_FORMED) 10), w')
    /\ points (_parse_quiz_response fullwidth_decimal 4300
                 (PyStr Sample.WELL_FORMED) 10) = 10%Z.
Proof.
  destruct (C4_points_lookup fullwidth_decimal 4300)
    as (_ & _ & _ & _ & _ & Hgen).
  destruct (Hgen Sample.ENOSHIMA Sample.DESCRIPTION Text.ELEMENTARY
                 (PyStr Sample.WELL_FORMED) [] 42%Z well_behaved
                 (no_requests (Some well_behaved)) eq_refl eq_refl)
    as (w' & Hrun & Hpoints & _).
  exists w'. split; [exact Hrun|]. exact (Hpoints _ eq_refl).
Defined.

(** A request at the 小学生 level, for which the lookup gives 10 points, and
    a provider answer whose content is [None]: generation returns, the
    endpoint tags the answer "openai", and the quiz has 15 points. *)
Lemma C4_counterexample :
  points_for (PyStr Text.ELEMENTARY) = 10%Z
  /\ (forall dec lim,
         exists q w',
           _generate_quiz_with_openai dec lim Sample.ENOSHIMA
             Sample.DESCRIPTION Text.ELEMENTARY
             (no_requests (Some no_content)) = (ok q, w')
           /\ generate_ai_quiz dec lim
                (sample_request Sample.ENOSHIMA Text.ELEMENTARY)
                (no_requests (Some no_content))
              = (ok {| success := true; quiz := Some q;
                       generated_by := Text.OPENAI |}, w')
           /\ points q = 15%Z
           /\ points q <> points_for (PyStr Text.ELEMENTARY)).
Proof.
  split; [reflexivity|]. intros dec lim.
  do 2 eexists. split; [reflexivity|]. split; [reflexivity|].
  split; [reflexivity|]. discriminate.
Qed.

Lemma C3_generation_never_fails_witness :
  exists w',
    generate_ai_quiz fullwidth_decimal 4300
      (sample_request Sample.TSURUGAOKA_HACHIMANGU Text.HIGH)
      (no_requests (Some rate_limited))
    = (ok {| success := true;
             quiz := Some (_get_fallback_quiz Sample.TSURUGAOKA_HACHIMANGU
                                              (PyStr Text.HIGH));
             generated_by := Text.FALLBACK |}, w')
    /\ length (sent w') = 1.
Proof.
  eexists. split.
  - refine (proj1 (proj2 (C3_generation_never_fails fullwidth_decimal 4300
                            (sample_request Sample.TSURUGAOKA_HACHIMANGU
                                            Text.HIGH)
                            (no_requests (Some rate_limited))))
                  RateLimitError _ _ _).
    + discriminate.
    + reflexivity.
  - reflexivity.
Defined.

(** ** The scenarios of the specification *)

Example well_formed_text_parses (dec : codepoint -> option N) (lim : nat) :
  _parse_quiz_response dec lim (PyStr Sample.WELL_FORMED) 15
  = {| question := Sample.Q;
       options := [Sample.A; Sample.B; Sample.C; Sample.D];
       correct_answer := 1;
       explanation := Sample.E;
       points := 15 |}.
Proof.
  rewrite parse_str. vm_compute. reflexivity.
Qed.

Example empty_text_gets_defaults (dec : codepoint -> option N) (lim : nat)
        (pts : Z) :
  _parse_quiz_response dec lim (PyStr []) pts
  = {| question := Text.DEFAULT_QUESTION;
       options := Text.DEFAULT_OPTIONS;
       correct_answer := 0;
       explanation := Text.DEFAULT_EXPLANATION;
       points := pts |}.
Proof.
  rewrite parse_str. reflexivity.
Qed.

Example two_options_replaced (dec : codepoint -> option N) (lim : nat) :
  collected_options Sample.TWO_OPTIONS = [Sample.A; Sample.B]
  /\ options (_parse_quiz_response dec lim (PyStr Sample.TWO_OPTIONS) 15)
     = Text.DEFAULT_OPTIONS.
Proof.
  split; [reflexivity|]. rewrite parse_str. vm_compute. reflexivity.
Qed.

Example five_options_replaced (dec : codepoint -> option N) (lim : nat) :
  collected_options Sample.FIVE_OPTIONS
  = [Sample.A; Sample.B; Sample.C; Sample.D; Sample.E]
  /\ options (_parse_quiz_response dec lim (PyStr Sample.FIVE_OPTIONS) 15)
     = Text.DEFAULT_OPTIONS.
Proof.
  split; [reflexivity|]. rewrite parse_str. vm_compute. reflexivity.
Qed.

Example fullwidth_answer_is_read :
  int fullwidth_decimal 4300 [0xFF14%N] = ok 4%Z
  /\ int (fun _ => None) 4300 [0xFF14%N] = raise ValueError.
Proof.
  split; reflexivity.
Qed.

Example great_buddha_without_client :
  generate_ai_quiz fullwidth_decimal 4300
    (sample_request Sample.KAMAKURA_DAIBUTSU Text.MIDDLE) (no_requests None)
  = (ok {| success := true;
           quiz := Some {| question :=
                             Sample.KAMAKURA_DAIBUTSU ++ Text.WHICH_IS_CORRECT;
                           options := Text.DAIBUTSU_OPTIONS;
                           correct_answer := 0;
                           explanation :=
                             Sample.KAMAKURA_DAIBUTSU
                             ++ Text.DAIBUTSU_EXPLANATION;
                           points := 15 |};
           generated_by := Text.FALLBACK |},
     no_requests None).
Proof.
  reflexivity.
Qed.

(** A provider answer without choices, or without usage, makes generation
    raise, and the endpoint answers with the fallback quiz. *)
Example malformed_answers_fall_back :
  fst (generate_ai_quiz fullwidth_decimal 4300
         (sample_request Sample.ENOSHIMA Text.HIGH)
         (no_requests (Some no_choices)))
  = ok (fallback_response (sample_request Sample.ENOSHIMA Text.HIGH))
  /\ fst (generate_ai_quiz fullwidth_decimal 4300
            (sample_request Sample.ENOSHIMA Text.HIGH)
            (no_requests (Some no_usage)))
     = ok (fallback_response (sample_request Sample.ENOSHIMA Text.HIGH)).
Proof.
  split; reflexivity.
Qed.

(** A provider answer whose content is [None] is caught inside the parser:
    the endpoint tags the answer "openai" and the quiz is the generic
    fallback quiz with its 15 points. *)
Example missing_content_is_parsed_as_fallback :
  fst (generate_ai_quiz fullwidth_decimal 4300
         (sample_request Sample.ENOSHIMA Text.ELEMENTARY)
         (no_requests (Some no_content)))
  = ok {| success := true;
          quiz := Some (_get_fallback_quiz [] (PyInt 15));
          generated_by := Text.OPENAI |}
  /\ points (_get_fallback_quiz [] (PyInt 15)) = 15%Z.
Proof.
  split; reflexivity.
Qed.

(** * Further concrete inputs *)

Unset Implicit Arguments.

Lemma sample_texts_shape :
  Forall (fun s => s <> [] /\ single_trimmed_line s)
         [Sample.Q; Sample.A; Sample.B; Sample.C; Sample.D; Sample.E].
Proof.
  repeat (apply Forall_cons;
          [split; [discriminate
                  |split; [reflexivity|apply not_in_by_eqb; reflexivity]]|]).
  apply Forall_nil.
Qed.

Lemma formatted_quiz_is_read_back_witness :
  _parse_quiz_response fullwidth_decimal 4300 (PyStr Sample.WELL_FORMED) 15
  = {| question := Sample.Q;
       options := [Sample.A; Sample.B; Sample.C; Sample.D];
       correct_answer := 1;
       explanation := Sample.E;
       points := 15 |}.
Proof.
  refine (formatted_quiz_is_read_back fullwidth_decimal 4300
            Sample.Q Sample.A Sample.B Sample.C Sample.D Sample.E
            (nth 0 Text.OPTION_MARKS []) (nth 1 Text.OPTION_MARKS [])
            (nth 2 Text.OPTION_MARKS []) (nth 3 Text.OPTION_MARKS [])
            2%N 15%Z sample_texts_shape _ eq_refl eq_refl _).
  - repeat (apply Forall_cons; [cbn; tauto|]). apply Forall_nil.
  - vm_compute. discriminate.
Defined.

Lemma unmarked_lines_are_ignored_witness :
  _parse_quiz_response fullwidth_decimal 4300
    (PyStr (More.FIRST_HALF ++ NEWLINE :: More.CHATTER
            ++ NEWLINE :: More.SECOND_HALF)) 15
  = _parse_quiz_response fullwidth_decimal 4300
      (PyStr (More.FIRST_HALF ++ NEWLINE :: More.SECOND_HALF)) 15.
Proof.
  refine (proj1 (unmarked_lines_are_ignored fullwidth_decimal 4300
                   More.FIRST_HALF More.CHATTER More.SECOND_HALF 15%Z _)).
  vm_compute. repeat constructor.
Defined.

Lemma whitespace_around_lines_is_ignored_witness :
  _parse_quiz_response fullwidth_decimal 4300
    (PyStr (More.FIRST_HALF ++ CARRIAGE_RETURN :: NEWLINE :: More.SECOND_HALF))
    15
  = _parse_quiz_response fullwidth_decimal 4300
      (PyStr (More.FIRST_HALF ++ NEWLINE :: More.SECOND_HALF)) 15.
Proof.
  refine (proj1 (whitespace_around_lines_is_ignored fullwidth_decimal 4300
                   More.FIRST_HALF More.SECOND_HALF CARRIAGE_RETURN 15%Z
                   eq_refl _)).
  discriminate.
Defined.

Lemma non_text_content_gets_generic_quiz_witness :
  _parse_quiz_response fullwidth_decimal 4300 PyNone 10
  = {| question := Text.WHICH_IS_CORRECT;
       options := Text.GENERIC_OPTIONS;
       correct_answer := 0;
       explanation := Text.GENERIC_EXPLANATION;
       points := 15 |}.
Proof.
  refine (non_text_content_gets_generic_quiz fullwidth_decimal 4300
            PyNone 10%Z _).
  discriminate.
Defined.

Lemma key_of_wrong_format_means_fallback_witness :
  api_configured (Some More.WRONG_FORMAT_KEY) = true
  /\ openai_available
       (health_check (loaded (Some More.WRONG_FORMAT_KEY)
                             (fun _ => ok well_behaved))) = false
  /\ generate_ai_quiz fullwidth_decimal 4300
       (sample_request Sample.ENOSHIMA Text.HIGH)
       (loaded (Some More.WRONG_FORMAT_KEY) (fun _ => ok well_behaved))
     = (ok (fallback_response (sample_request Sample.ENOSHIMA Text.HIGH)),
        loaded (Some More.WRONG_FORMAT_KEY) (fun _ => ok well_behaved)).
Proof.
  refine (key_of_wrong_format_means_fallback fullwidth_decimal 4300
            More.WRONG_FORMAT_KEY (fun _ => ok well_behaved)
            (sample_request Sample.ENOSHIMA Text.HIGH) _ eq_refl).
  discriminate.
Defined.

Lemma numeral_answer_is_clamped_or_over_limit_witness :
  correct_answer
    (_parse_quiz_response fullwidth_decimal 4300
       (PyStr (Text.ANSWER_MARK ++ SPACE :: repeat 0x39%N 4000)) 15) = 3%Z
  /\ correct_answer
       (_parse_quiz_response fullwidth_decimal 4300
          (PyStr (Text.ANSWER_MARK ++ SPACE :: repeat 0x39%N 5000)) 15) = 0%Z.
Proof.
  assert (Hnines : forall n,
             Forall (fun c => is_ascii_digit c = true) (repeat 0x39%N n)).
  { intros n. apply Forall_forall. intros c Hin.
    apply repeat_spec in Hin. now subst. }
  split.
  - rewrite (numeral_answer_is_clamped_or_over_limit fullwidth_decimal 4300
               (repeat 0x39%N 4000) 15%Z);
      [|discriminate|apply Hnines].
    rewrite repeat_length.
    assert (Hmono : forall n v, (9 <= v)%Z ->
              (4 <= fold_left (fun value c =>
                                 (10 * value + Z.of_N (c - 0x30))%Z)
                              (repeat 0x39%N n) v)%Z).
    { induction n as [|n IH]; intros v Hv; cbn [repeat fold_left]; [lia|].
      apply IH. change (Z.of_N (0x39 - 0x30)) with 9%Z. lia. }
    assert (Hbig : forall n, (4 <= decimal_value (repeat 0x39%N (S n)))%Z).
    { intros n. unfold decimal_value. cbn [repeat fold_left].
      apply Hmono. reflexivity. }
    specialize (Hbig 3999).
    change (over_digit_limit 4300 4000) with false. cbv iota. lia.
  - rewrite (numeral_answer_is_clamped_or_over_limit fullwidth_decimal 4300
               (repeat 0x39%N 5000) 15%Z);
      [|discriminate|apply Hnines].
    rewrite repeat_length. reflexivity.
Defined.

Lemma missing_fields_get_defaults_witness :
  correct_answer (_parse_quiz_response fullwidth_decimal 4300
                    (PyStr Sample.TWO_OPTIONS) 15) = 0%Z
  /\ explanation (_parse_quiz_response fullwidth_decimal 4300
                    (PyStr Sample.TWO_OPTIONS) 15)
     = Text.DEFAULT_EXPLANATION
  /\ question (_parse_quiz_response fullwidth_decimal 4300
                 (PyStr Sample.ANSWER_NINE) 15)
     = Text.DEFAULT_QUESTION
  /\ options (_parse_quiz_response fullwidth_decimal 4300
                (PyStr Sample.ANSWER_NINE) 15)
     = Text.DEFAULT_OPTIONS.
Proof.
  destruct (missing_fields_get_defaults fullwidth_decimal 4300
              Sample.TWO_OPTIONS 15%Z) as (_ & Hanswer & Hexplanation & _).
  destruct (missing_fields_get_defaults fullwidth_decimal 4300
              Sample.ANSWER_NINE 15%Z) as (Hquestion & _ & _ & Hoptions).
  split; [exact (Hanswer eq_refl)|].
  split; [exact (Hexplanation eq_refl)|].
  split; [exact (Hquestion eq_refl)|exact (Hoptions eq_refl)].
Defined.

Lemma openai_tag_means_provider_answered_witness :
  exists response w',
    generate_ai_quiz fullwidth_decimal 4300
      (sample_request Sample.ENOSHIMA Text.HIGH)
      (no_requests (Some well_behaved)) = (ok response, w')
    /\ generated_by response = Text.OPENAI
    /\ quiz response
       = Some (_parse_quiz_response fullwidth_decimal 4300
                 (PyStr Sample.WELL_FORMED) 20)
    /\ length (sent w') = 1.
Proof.
  destruct (openai_tag_means_provider_answered fullwidth_decimal 4300
              (sample_request Sample.ENOSHIMA Text.HIGH)
              (no_requests (Some well_behaved)))
    as (response & w' & Hrun & Htag & Hquiz & _ & _ & Hsent).
  exists response, w'. split; [exact Hrun|].
  split.
  - apply Htag. now exists well_behaved, (PyStr Sample.WELL_FORMED), [], 42%Z.
  - split; [exact (Hquiz well_behaved (PyStr Sample.WELL_FORMED) [] 42%Z
                         eq_refl eq_refl)|].
    rewrite Hsent. reflexivity.
Defined.
